(** * bart_evaluator.py: a shallow embedding and its verified properties

    The script evaluates BART text-correction models: it loads a CSV of
    reference and predicted transcriptions, discovers the model directories,
    generates corrections, scores them and writes three CSV reports per
    model.  This file embeds the script's own code ([count_outliers],
    [get_max_length_from_dir] and the [__main__] block) together with the
    parts of Python, pandas and numpy it relies on, and proves the
    properties of the specification about it. *)

From Stdlib Require Import ZArith NArith Lia Bool Ascii String Floats.
From Stdlib Require Import DecimalString.
From Stdlib Require DecimalPos DecimalZ.
From stdpp Require Import base option list gmap.
From Equations Require Import Equations.
From Equations.Prop Require Import Logic.

Local Open Scope Z_scope.

(** ** Python values used by the script *)

(** A Python [str] is a sequence of Unicode code points. *)
Definition str := list N.

(** A string literal of the source (ASCII only). *)
Definition lit (s : string) : str :=
  map N_of_ascii (list_ascii_of_string s).

(** The exceptions that the modelled code and its collaborators raise.
    [SystemExit] is what [exit()] raises. *)
Inductive exn :=
| ValueError
| IndexError
| KeyError
| OSError
| SystemExit
| OtherError.

(** The outcome of evaluating a Python expression: a value or a raised
    exception. *)
Inductive result (A : Type) :=
| Ok (a : A)
| Raise (e : exn).
Arguments Ok {A} a.
Arguments Raise {A} e.

Definition rbind {A B} (r : result A) (k : A → result B) : result B :=
  match r with
  | Ok a => k a
  | Raise e => Raise e
  end.

(** [try: body / except ValueError: handler]. Any other exception
    propagates. *)
Definition try_except_ValueError {A} (body : result A) (handler : result A)
  : result A :=
  match body with
  | Raise ValueError => handler
  | r => r
  end.

(** ** The built-in string operations *)

Module Py.

(** [s.startswith(p)] *)
Fixpoint startswith (s p : str) {struct p} : bool :=
  match p with
  | [] => true
  | a :: p' =>
      match s with
      | [] => false
      | b :: s' => N.eqb a b && startswith s' p'
      end
  end.

(** [s.find(sep)]: the lowest index at which [sep] occurs in [s]. *)
Fixpoint find (s sep : str) : option nat :=
  if startswith s sep then Some 0%nat
  else match s with
       | [] => None
       | _ :: s' => S <$> find s' sep
       end.

(** [sep in s] *)
Definition contains (sep s : str) : bool :=
  match find s sep with Some _ => true | None => false end.

(** [s.split(sep)] for a non-empty separator: cut at the first occurrence
    of [sep], then go on after it, as CPython's loop over [find] does. *)
Equations? split_nonempty (s : str) (c : N) (sep : str) : list str
  by wf (length s) lt :=
  split_nonempty s c sep with inspect (find s (c :: sep)) := {
    | exist _ None _ => [s]
    | exist _ (Some pos) _ =>
        take pos s :: split_nonempty (drop (pos + length (c :: sep)) s) c sep }.
Proof.
  assert (pos < length s)%nat as Hpos.
  { clear split_nonempty. revert pos e.
    induction s as [|b s IH]; intros pos; simpl; [discriminate|].
    destruct (N.eqb c b && startswith s sep); [intros [= <-]; lia|].
    destruct (find s (c :: sep)) as [k|]; simpl; [|discriminate].
    intros [= <-]. specialize (IH k eq_refl). lia. }
  rewrite length_drop. simpl. lia.
Qed.

(** [s.split(sep)]; an empty separator is a [ValueError]. *)
Definition split (s sep : str) : result (list str) :=
  match sep with
  | [] => Raise ValueError
  | c :: sep' => Ok (split_nonempty s c sep')
  end.

(** [l[-1]]; an empty list is an [IndexError]. *)
Definition last_item {A} (l : list A) : result A :=
  match last l with
  | Some x => Ok x
  | None => Raise IndexError
  end.

End Py.

#[global] Instance result_ret : MRet result := @Ok.
#[global] Instance result_bind : MBind result := λ A B k r, rbind r k.

(** ** [int(s)] on a [str]

    CPython first maps every non-ASCII white-space character to a blank and
    every non-ASCII decimal digit to its ASCII digit, then reads: white
    space, an optional sign, decimal digits in which single underscores may
    separate digits, white space, end of string.  The two Unicode tables
    and the interpreter's limit on the number of digits belong to the
    interpreter, not to the script: they are parameters here. *)
Class Interpreter := {
  (** [Py_UNICODE_ISSPACE] on code points from 128 on *)
  unicode_isspace : N → bool;
  (** [Py_UNICODE_TODECIMAL] on code points from 128 on; [None] is -1 *)
  unicode_todecimal : N → option Z;
  (** [sys.get_int_max_str_digits()]; 0 means no limit *)
  int_max_str_digits : nat
}.

Module PyInt.
Section WithInterpreter.
Context {I : Interpreter}.

Definition is_space (c : N) : bool :=
  if (c <? 128)%N then ((9 <=? c) && (c <=? 13) || (c =? 32))%N
  else unicode_isspace c.

Definition decimal_digit (c : N) : option Z :=
  if (c <? 128)%N then
    if ((48 <=? c) && (c <=? 57))%N then Some (Z.of_N c - 48) else None
  else if unicode_isspace c then None
  else unicode_todecimal c.

Fixpoint skip_spaces (s : str) : str :=
  match s with
  | c :: s' => if is_space c then skip_spaces s' else s
  | [] => []
  end.

(** The sign: ['+'] is 43 and ['-'] is 45. *)
Definition read_sign (s : str) : bool * str :=
  match s with
  | c :: s' =>
      if (c =? 43)%N then (false, s')
      else if (c =? 45)%N then (true, s')
      else (false, s)
  | [] => (false, [])
  end.

(** The digit loop: ['_'] is 95; two underscores in a row and an underscore
    at the end of the digits are refused.  Returns the value read, the
    number of digits and the rest of the string. *)
Fixpoint scan_digits (prev_underscore : bool) (value : Z) (digits : nat)
  (s : str) : option (Z * nat * str) :=
  match s with
  | c :: s' =>
      if (c =? 95)%N then
        if prev_underscore then None
        else scan_digits true value digits s'
      else
        match decimal_digit c with
        | Some d => scan_digits false (10 * value + d) (S digits) s'
        | None => if prev_underscore then None else Some (value, digits, s)
        end
  | [] => if prev_underscore then None else Some (value, digits, [])
  end.

Definition starts_with_underscore (s : str) : bool :=
  match s with
  | c :: _ => (c =? 95)%N
  | [] => false
  end.

(** The digit limit is only looked at above 640 digits. *)
Definition exceeds_digit_limit (digits : nat) : bool :=
  (640 <? digits)%nat && (0 <? int_max_str_digits)%nat
  && (int_max_str_digits <? digits)%nat.

Definition int (s : str) : result Z :=
  let '(negative, s1) := read_sign (skip_spaces s) in
  if starts_with_underscore s1 then Raise ValueError
  else
    match scan_digits false 0 0 s1 with
    | None => Raise ValueError
    | Some (value, digits, rest) =>
        if (digits =? 0)%nat then Raise ValueError
        else if exceeds_digit_limit digits then Raise ValueError
        else
          match skip_spaces rest with
          | [] => Ok (if negative then - value else value)
          | _ :: _ => Raise ValueError
          end
    end.

End WithInterpreter.
End PyInt.

(** ** [get_max_length_from_dir] *)

Section MaxLength.
Context {I : Interpreter}.

(** The default of the [default] argument. *)
Definition get_max_length_from_dir_default : Z := 64.

Definition get_max_length_from_dir (dir_name : str) (default : Z)
  : result Z :=
  if Py.contains (lit "_ml") dir_name then
    try_except_ValueError
      (parts ← Py.split dir_name (lit "_ml");
       max_length_str ← Py.last_item parts;
       PyInt.int max_length_str)
      (Ok default)
  else Ok default.

End MaxLength.

(** An interpreter whose Unicode tables are empty above ASCII and whose
    digit limit is CPython's default. *)
Definition ascii_interpreter : Interpreter :=
  {| unicode_isspace := λ _, false;
     unicode_todecimal := λ _, None;
     int_max_str_digits := 4300 |}.

(** ** pandas: the input table *)

(** A cell of the parsed CSV file: a text, or a missing value (NaN). *)
Definition cell := option str.

Definition notna (c : cell) : bool :=
  match c with Some _ => true | None => false end.

(** A row of the input file: the two columns the script reads and the
    other columns of the file, whatever they are. *)
Record input_row := {
  True_Transcription : cell;
  Predicted_Transcription : cell;
  other_columns : list cell
}.

(** A DataFrame: its rows, each under its index label. *)
Definition frame (R : Type) := list (nat * R).

(** The index of a frame that [pd.read_csv] or [reset_index(drop=True)]
    builds: 0, 1, 2, ... *)
Definition range_index {R} (rows : list R) : frame R :=
  imap (λ i r, (i, r)) rows.

(** [df.dropna(subset=[...])]: with the default [how='any'] a row goes as
    soon as one column of the subset is missing. *)
Definition dropna {R} (subset : list (R → cell)) (df : frame R) : frame R :=
  List.filter (λ r, forallb (λ col, notna (col r.2)) subset) df.

(** [df.reset_index(drop=True)] *)
Definition reset_index_drop {R} (df : frame R) : frame R :=
  range_index (map snd df).

(** [df[col].tolist()] *)
Definition tolist {R A} (col : R → A) (df : frame R) : list A :=
  map (λ r, col r.2) df.

(** Lines 87 to 90 of the script: the cleaned table and the two lists. *)
Definition clean (data : frame input_row) : frame input_row :=
  reset_index_drop (dropna [True_Transcription; Predicted_Transcription] data).

(** ** pandas: the table of per-sample results *)

(** One dictionary appended to [results_per_sample].  The key of
    [True_Transcription_] is [True Transcription]; the plain name is the
    input column's. *)
Record sample_result := {
  Model : str;
  True_Transcription_ : cell;
  Original_Prediction : cell;
  BART_Corrected : str;
  WER : float;
  CER : float;
  BLEU : float;
  Cosine_Similarity : float
}.

(** What a cell of a written table holds. *)
Inductive value :=
| VStr (s : str)
| VCell (c : cell)
| VFloat (x : float)
| VCount (n : nat).

(** The keys of that dictionary, in the order of the literal. *)
Definition result_keys : list str :=
  [lit "Model"; lit "True Transcription"; lit "Original Prediction";
   lit "BART Corrected"; lit "WER"; lit "CER"; lit "BLEU";
   lit "Cosine Similarity"].

Definition result_values (r : sample_result) : list value :=
  [VStr (Model r); VCell (True_Transcription_ r);
   VCell (Original_Prediction r); VStr (BART_Corrected r);
   VFloat (WER r); VFloat (CER r); VFloat (BLEU r);
   VFloat (Cosine_Similarity r)].

(** The frame of results: its column labels and its records. *)
Record DataFrame := {
  columns : list str;
  records : list sample_result
}.

(** [pd.DataFrame(results_per_sample)]: the columns are the keys of the
    dictionaries; a frame built from no dictionary has no column. *)
Definition pd_DataFrame (results_per_sample : list sample_result)
  : DataFrame :=
  {| columns := match results_per_sample with
                | [] => []
                | _ :: _ => result_keys
                end;
     records := results_per_sample |}.

(** The numeric columns of the frame. *)
Definition metric_column (name : str) : option (sample_result → float) :=
  if decide (name = lit "WER") then Some WER
  else if decide (name = lit "CER") then Some CER
  else if decide (name = lit "BLEU") then Some BLEU
  else if decide (name = lit "Cosine Similarity") then Some Cosine_Similarity
  else None.

(** [df[name]] for a numeric column; a label that is not a column is a
    [KeyError]. *)
Definition getitem (df : DataFrame) (name : str) : result (list float) :=
  if decide (name ∈ columns df) then
    match metric_column name with
    | Some col => Ok (map col (records df))
    | None => Raise OtherError
    end
  else Raise KeyError.

(** [series.between(left, right)]: [(series >= left) & (series <= right)],
    element by element, on IEEE doubles. *)
Definition in_interval (x left right : float) : bool :=
  ((left <=? x) && (x <=? right))%float.

Definition between (series : list float) (left right : float) : list bool :=
  map (λ x, in_interval x left right) series.

(** [~series] on booleans. *)
Definition invert (series : list bool) : list bool := map negb series.

(** [series.sum()] on booleans: the number of [True]. *)
Definition sum (series : list bool) : nat :=
  length (List.filter id series).

(** [np.logical_or.reduce(list_of_series)]: the series are the rows of an
    array and the reduction runs down each column, from the first row. *)
Definition logical_or_reduce (conds : list (list bool)) : list bool :=
  match conds with
  | [] => []
  | c :: cs => foldl (zip_with orb) c cs
  end.

(** ** [count_outliers] *)

(** The returned dictionary, as the list of its items in insertion order. *)
Definition count_outliers (df : DataFrame) : result (list (str * nat)) :=
  bleu ← getitem df (lit "BLEU");
  wer ← getitem df (lit "WER");
  cer ← getitem df (lit "CER");
  cosine ← getitem df (lit "Cosine Similarity");
  let outlier_conditions :=
    [(lit "BLEU", invert (between bleu 0 100));
     (lit "WER", invert (between wer 0 1));
     (lit "CER", invert (between cer 0 1));
     (lit "Cosine Similarity", invert (between cosine 0 1))] in
  let outlier_counts :=
    map (λ '(metric, cond), (metric, sum cond)) outlier_conditions in
  let any_outlier_condition :=
    logical_or_reduce (map snd outlier_conditions) in
  let total_outliers := sum any_outlier_condition in
  Ok (outlier_counts ++ [(lit "Total Outliers", total_outliers)]).

(** ** Tables and the writing of a file *)

(** A table as [to_csv(..., index=False)] writes it: the header line and
    the data lines. *)
Record table := {
  header : list str;
  body : list (list value)
}.

(** What becomes of a [to_csv]: the file is written; or the call raises,
    and the file is as it was ([partial = None]: it could not be opened, as
    when the name is taken by a directory or the directory is read-only),
    or holds what had been written by then ([partial = Some t'], as when the
    disk fills up). *)
Inductive write_outcome :=
  | Written
  | Failed (e : exn) (partial : option table).

(** ** What the script calls and does not define

    The file system, scikit-learn's TF-IDF vectorizer, the transformers
    tokenizer and model, jiwer, sacrebleu and the pandas statistics.  Each
    call either returns or raises.  The device the model is moved to, its
    evaluation mode and the progress bars change no result and are left
    out, and so are the NLTK downloads that the module runs when it is
    loaded, before the [__main__] block. *)
Class Collaborators := {
  vectorizer : Type;
  vector : Type;
  tokenizer : Type;
  model : Type;
  encoding : Type;
  token_ids : Type;
  (** [pd.read_csv(path)]: the parsed rows *)
  read_csv : str → result (list input_row);
  (** [os.listdir(path)] and [os.path.isdir(d)] *)
  listdir : str → result (list str);
  isdir : str → bool;
  (** [TfidfVectorizer().fit(texts)] and [vectorizer.transform(texts)] *)
  tfidf_fit : list cell → result vectorizer;
  tfidf_transform : vectorizer → list cell → result (list vector);
  (** [cosine_similarity(X, Y)]: the matrix of the similarities of the rows
      of [X] and the rows of [Y] *)
  cosine_similarity : list vector → list vector → result (list (list float));
  (** [BartTokenizer.from_pretrained(d)] and
      [BartForConditionalGeneration.from_pretrained(d)] *)
  tokenizer_from_pretrained : str → result tokenizer;
  model_from_pretrained : str → result model;
  (** [tokenizer(text, ..., max_length=n)] *)
  tokenize : tokenizer → cell → Z → result encoding;
  (** [model.generate] on the inputs with [max_new_tokens=n], first output *)
  generate : model → encoding → Z → result token_ids;
  (** [tokenizer.decode(ids, skip_special_tokens=True)] *)
  decode : tokenizer → token_ids → result str;
  (** [wer(ref, hyp)], [cer(ref, hyp)] and
      [corpus_bleu([hyp], [[ref]]).score] *)
  wer : cell → str → result float;
  cer : cell → str → result float;
  corpus_bleu : str → cell → result float;
  (** [series.mean()] and [series.median()] *)
  mean : list float → float;
  median : list float → float;
  (** what the file system makes of [to_csv(path)] with this content *)
  write_file : str → table → write_outcome
}.

(** ** The script's effects *)

(** What a run has printed and the files it has written. *)
Record state := {
  stdout : list str;
  files : gmap str table
}.

(** A step of the script: from a state to a value or an exception, and the
    state it leaves. *)
Definition M (A : Type) : Type := state → result A * state.

Definition ret {A} (a : A) : M A := λ σ, (Ok a, σ).

Definition bind {A B} (m : M A) (k : A → M B) : M B :=
  λ σ, match m σ with
       | (Ok a, σ') => k a σ'
       | (Raise e, σ') => (Raise e, σ')
       end.

#[global] Instance M_ret : MRet M := @ret.
#[global] Instance M_bind : MBind M := λ A B k m, bind m k.

(** A call to a collaborator or to a pure function that may raise. *)
Definition call {A} (r : result A) : M A := λ σ, (r, σ).

(** [print(line)] *)
Definition print (line : str) : M unit :=
  λ σ, (Ok (), {| stdout := stdout σ ++ [line]; files := files σ |}).

(** The files after a write that failed. *)
Definition leave (path : str) (partial : option table) (fs : gmap str table)
  : gmap str table :=
  match partial with
  | Some t => <[path := t]> fs
  | None => fs
  end.

(** [df.to_csv(path, index=False)] *)
Definition to_csv {C : Collaborators} (path : str) (t : table) : M unit :=
  λ σ, match write_file path t with
       | Written =>
           (Ok (), {| stdout := stdout σ; files := <[path := t]> (files σ) |})
       | Failed e partial =>
           (Raise e,
            {| stdout := stdout σ; files := leave path partial (files σ) |})
       end.

(** [exit()] *)
Definition exit {A} : M A := call (Raise SystemExit).

(** A step that leaves the files as they are. *)
Definition keeps_files {A} (m : M A) : Prop :=
  ∀ σ, files (m σ).2 = files σ.

(** [for x in xs: ys.append(body(x))] *)
Fixpoint for_each {A B} (body : A → M B) (xs : list A) : M (list B) :=
  match xs with
  | [] => ret []
  | x :: xs' => y ← body x; ys ← for_each body xs'; ret (y :: ys)
  end.

(** [l[i]] *)
Definition item {A} (l : list A) (i : nat) : result A :=
  match l !! i with
  | Some x => Ok x
  | None => Raise IndexError
  end.

(** [str(n)] for an integer, as an f-string formats it. *)
Definition str_of_int (n : Z) : str :=
  lit (NilZero.string_of_int (Z.to_int n)).

Definition newline : str := [10%N].

(** ** The [__main__] block *)

Section Script.
Context {I : Interpreter} {C : Collaborators}.

Definition file_path : str := lit "llm_evaluation_summary.csv".

Definition metrics : list str :=
  [lit "WER"; lit "CER"; lit "BLEU"; lit "Cosine Similarity"].

(** Lines 127 to 140, the body of the generation loop. *)
Definition correct (tok : tokenizer) (mdl : model) (max_length : Z)
  (pred_text : cell) : M str :=
  inputs ← call (tokenize tok pred_text max_length);
  outputs ← call (generate mdl inputs max_length);
  call (decode tok outputs).

(** Lines 151 to 172, the body of the metrics loop, on one item of
    [enumerate(zip(references, bart_predictions))]. *)
Definition score (model_dir : str) (vec : vectorizer)
  (reference_vectors : list vector) (original_predictions : list cell)
  (entry : nat * (cell * str)) : M sample_result :=
  let '(i, (ref, bart_pred)) := entry in
  sample_wer ← call (wer ref bart_pred);
  sample_cer ← call (cer ref bart_pred);
  sample_bleu ← call (corpus_bleu bart_pred ref);
  ref_vector ← call (item reference_vectors i);
  bart_vector ← call (tfidf_transform vec [Some bart_pred]);
  similarities ← call (cosine_similarity [ref_vector] bart_vector);
  row ← call (item similarities 0);
  sample_cosine ← call (item row 0);
  original_prediction ← call (item original_predictions i);
  ret {| Model := model_dir;
         True_Transcription_ := ref;
         Original_Prediction := original_prediction;
         BART_Corrected := bart_pred;
         WER := sample_wer;
         CER := sample_cer;
         BLEU := sample_bleu;
         Cosine_Similarity := sample_cosine |}.

(** The three tables of lines 175 to 206. *)
Definition detailed_table (df : DataFrame) : table :=
  {| header := columns df; body := map result_values (records df) |}.

Definition summary_table (mean_metrics median_metrics : list float) : table :=
  {| header := [lit "Metric"; lit "Mean (All Data)"; lit "Median (All Data)"];
     body := zip_with (λ metric stats,
                         [VStr metric; VFloat stats.1; VFloat stats.2])
               metrics (zip mean_metrics median_metrics) |}.

Definition outlier_table (outlier_counts : list (str * nat)) : table :=
  {| header := [lit "Metric"; lit "Outlier Count"];
     body := map (λ '(metric, count), [VStr metric; VCount count])
               outlier_counts |}.

(** Lines 175 to 206: the Report Writer. *)
Definition report (model_dir : str) (results_per_sample : list sample_result)
  : M unit :=
  let detailed_results_df := pd_DataFrame results_per_sample in
  let output_file := model_dir ++ lit "_detailed_evaluation.csv" in
  print (lit "Saving per-sample evaluation results to " ++ output_file
         ++ lit "...");;
  to_csv output_file (detailed_table detailed_results_df);;
  selected ← call (mapM (getitem detailed_results_df) metrics);
  let mean_metrics := map mean selected in
  selected ← call (mapM (getitem detailed_results_df) metrics);
  let median_metrics := map median selected in
  let summary_file := model_dir ++ lit "_summary_evaluation.csv" in
  print (lit "Saving summary (including outliers) results to " ++ summary_file
         ++ lit "...");;
  to_csv summary_file (summary_table mean_metrics median_metrics);;
  outlier_counts ← call (count_outliers detailed_results_df);
  let outlier_counts_file := model_dir ++ lit "_outlier_counts.csv" in
  print (lit "Saving outlier counts to " ++ outlier_counts_file ++ lit "...");;
  to_csv outlier_counts_file (outlier_table outlier_counts).

(** Lines 109 to 206, the body of the loop over the model directories. *)
Definition evaluate_model (references original_predictions : list cell)
  (vec : vectorizer) (reference_vectors : list vector) (model_dir : str)
  : M unit :=
  print (newline ++ lit "Evaluating BART model in: " ++ model_dir);;
  tok ← call (tokenizer_from_pretrained model_dir);
  mdl ← call (model_from_pretrained model_dir);
  max_length ← call (get_max_length_from_dir model_dir 128);
  print (lit "Using max_length=" ++ str_of_int max_length
         ++ lit " for generation...");;
  print (lit "Generating corrected predictions...");;
  bart_predictions ←
    for_each (correct tok mdl max_length) original_predictions;
  print (lit "Computing metrics for each sample...");;
  results_per_sample ←
    for_each (score model_dir vec reference_vectors original_predictions)
      (imap (λ i pair, (i, pair)) (zip references bart_predictions));
  report model_dir results_per_sample.

(** Lines 99 to 102: the directories whose name starts with
    [bart_minimal]. *)
Definition discover (entries : list str) : list str :=
  List.filter (λ d, isdir d && Py.startswith d (lit "bart_minimal")) entries.

Definition no_model_message : str :=
  lit "No BART model directories found matching 'bart_minimal*'. Exiting.".

(** Lines 99 to 208: discovery, the loop and the last message. *)
Definition discover_and_evaluate (references original_predictions : list cell)
  (vec : vectorizer) (reference_vectors : list vector) : M unit :=
  entries ← call (listdir (lit "."));
  let model_dirs := discover entries in
  match model_dirs with
  | [] => print no_model_message;; exit
  | _ :: _ =>
      for_each
        (evaluate_model references original_predictions vec reference_vectors)
        model_dirs;;
      print (newline ++ lit "BART Evaluation complete and saved.")
  end.

(** Lines 85 to 96: the Dataset Loader and the Similarity Index Builder. *)
Definition load : M (list cell * list cell) :=
  print (lit "Loading test data...");;
  rows ← call (read_csv file_path);
  let data := clean (range_index rows) in
  let references := tolist True_Transcription data in
  let original_predictions := tolist Predicted_Transcription data in
  ret (references, original_predictions).

Definition build_index (references original_predictions : list cell)
  : M (vectorizer * list vector) :=
  vec ← call (tfidf_fit (references ++ original_predictions));
  reference_vectors ← call (tfidf_transform vec references);
  original_pred_vectors ← call (tfidf_transform vec original_predictions);
  ret (vec, reference_vectors).

Definition main : M unit :=
  '(references, original_predictions) ← load;
  '(vec, reference_vectors) ← build_index references original_predictions;
  discover_and_evaluate references original_predictions vec reference_vectors.

(** The exit status of the process: an uncaught exception other than
    [SystemExit] ends it with status 1; [exit()] passes no code. *)
Definition exit_status {A} (outcome : result A) : Z :=
  match outcome with
  | Ok _ => 0
  | Raise SystemExit => 0
  | Raise _ => 1
  end.

Definition initial (fs : gmap str table) : state :=
  {| stdout := []; files := fs |}.

End Script.

(** ** The outliers, sample by sample

    The declared intervals, read on one record: these follow the
    specification's wording and are compared with [count_outliers] below. *)
Definition bleu_outlier (r : sample_result) : bool :=
  negb (in_interval (BLEU r) 0 100).
Definition wer_outlier (r : sample_result) : bool :=
  negb (in_interval (WER r) 0 1).
Definition cer_outlier (r : sample_result) : bool :=
  negb (in_interval (CER r) 0 1).
Definition cosine_outlier (r : sample_result) : bool :=
  negb (in_interval (Cosine_Similarity r) 0 1).

(** A sample violating at least one interval. *)
Definition any_outlier (r : sample_result) : bool :=
  bleu_outlier r || wer_outlier r || cer_outlier r || cosine_outlier r.

(** The number of records that satisfy [p]. *)
Definition count (p : sample_result → bool) (rs : list sample_result) : nat :=
  length (List.filter p rs).

(** ** The rows the loader keeps, in the specification's words *)

(** Both required fields are present. *)
Definition complete (r : input_row) : bool :=
  notna (True_Transcription r) && notna (Predicted_Transcription r).

(** ** Concrete inputs for the examples *)

Definition sample_clean : sample_result :=
  {| Model := lit "bart_minimal_ml32";
     True_Transcription_ := Some (lit "the cat sat");
     Original_Prediction := Some (lit "the cat sit");
     BART_Corrected := lit "the cat sat";
     WER := 0%float; CER := 0%float; BLEU := 100%float;
     Cosine_Similarity := 1%float |}.

(** A record out of two intervals at once: WER above 1 and a BLEU that is
    not a number. *)
Definition sample_nan : sample_result :=
  {| Model := lit "bart_minimal_ml32";
     True_Transcription_ := Some (lit "the cat sat");
     Original_Prediction := Some (lit "the cat sit");
     BART_Corrected := lit "a dog stood up here";
     WER := 2%float; CER := 0.5%float; BLEU := nan;
     Cosine_Similarity := 0%float |}.

Definition row_complete (ref pred : string) : input_row :=
  {| True_Transcription := Some (lit ref);
     Predicted_Transcription := Some (lit pred);
     other_columns := [] |}.

(** A row that lacks only the baseline prediction. *)
Definition row_without_prediction : input_row :=
  {| True_Transcription := Some (lit "good morning");
     Predicted_Transcription := None;
     other_columns := [] |}.

(** Stand-ins for the collaborators, over a working directory given as
    the list of its entries, each with whether it is a directory.  The
    model echoes its input, every score is the perfect one and every file
    can be written. *)
Definition stand_in (listing : list (str * bool)) : Collaborators :=
  {| vectorizer := unit;
     vector := unit;
     tokenizer := unit;
     model := unit;
     encoding := cell;
     token_ids := str;
     read_csv := λ _, Ok [row_complete "the cat sat" "the cat sit";
                          row_without_prediction;
                          row_complete "good night" "good knight"];
     listdir := λ _, Ok (map fst listing);
     isdir := λ d, existsb (λ e, bool_decide (e.1 = d) && e.2) listing;
     tfidf_fit := λ _, Ok ();
     tfidf_transform := λ _ texts, Ok (map (λ _, ()) texts);
     cosine_similarity := λ X Y, Ok (map (λ _, map (λ _, 1%float) Y) X);
     tokenizer_from_pretrained := λ _, Ok ();
     model_from_pretrained := λ _, Ok ();
     tokenize := λ _ text _, Ok text;
     generate := λ _ inputs _, Ok (default [] inputs);
     decode := λ _ ids, Ok ids;
     wer := λ _ _, Ok 0%float;
     cer := λ _ _, Ok 0%float;
     corpus_bleu := λ _ _, Ok 100%float;
     mean := λ xs, (foldr PrimFloat.add 0 xs
                    / foldr (λ _ n, n + 1) 0 xs)%float;
     median := λ xs, nth (length xs / 2) xs nan;
     write_file := λ _ _, Written |}.

(** Stand-ins that can fail: the input file is given as what [read_csv]
    returns or raises, the directories of [broken] hold no loadable
    tokenizer, and [wer] returns or raises [wer_result]. *)
Definition faulty_stand_in (csv : result (list input_row))
  (listing : list (str * bool)) (broken : list str)
  (wer_result : result float) : Collaborators :=
  {| vectorizer := unit;
     vector := unit;
     tokenizer := unit;
     model := unit;
     encoding := cell;
     token_ids := str;
     read_csv := λ _, csv;
     listdir := λ _, Ok (map fst listing);
     isdir := λ d, existsb (λ e, bool_decide (e.1 = d) && e.2) listing;
     tfidf_fit := λ _, Ok ();
     tfidf_transform := λ _ texts, Ok (map (λ _, ()) texts);
     cosine_similarity := λ X Y, Ok (map (λ _, map (λ _, 1%float) Y) X);
     tokenizer_from_pretrained :=
       λ d, if bool_decide (d ∈ broken) then Raise OSError else Ok ();
     model_from_pretrained := λ _, Ok ();
     tokenize := λ _ text _, Ok text;
     generate := λ _ inputs _, Ok (default [] inputs);
     decode := λ _ ids, Ok ids;
     wer := λ _ _, wer_result;
     cer := λ _ _, Ok 0%float;
     corpus_bleu := λ _ _, Ok 100%float;
     mean := λ xs, (foldr PrimFloat.add 0 xs
                    / foldr (λ _ n, n + 1) 0 xs)%float;
     median := λ xs, nth (length xs / 2) xs nan;
     write_file := λ _ _, Written |}.


(** ** The detailed table's header, in the specification's words *)
Definition spec_detailed_columns : list str :=
  [lit "Model"; lit "True Transcription"; lit "Original Prediction";
   lit "Corrected Output"; lit "WER"; lit "CER"; lit "BLEU";
   lit "Cosine Similarity"].

(** The names of the three files of a model. *)
Definition detailed_file (model_dir : str) : str :=
  model_dir ++ lit "_detailed_evaluation.csv".
Definition summary_file (model_dir : str) : str :=
  model_dir ++ lit "_summary_evaluation.csv".
Definition outlier_counts_file (model_dir : str) : str :=
  model_dir ++ lit "_outlier_counts.csv".

(** The four metric columns of a list of records, in the order of
    [metrics]. *)
Definition metric_columns (rs : list sample_result) : list (list float) :=
  [map WER rs; map CER rs; map BLEU rs; map Cosine_Similarity rs].

(** The four scores of a record. *)
Definition metric_values (r : sample_result) : float * float * float * float :=
  (WER r, CER r, BLEU r, Cosine_Similarity r).

(** The counts of a list of records. *)
Definition outlier_counts_of (rs : list sample_result) : list (str * nat) :=
  [(lit "BLEU", count bleu_outlier rs);
   (lit "WER", count wer_outlier rs);
   (lit "CER", count cer_outlier rs);
   (lit "Cosine Similarity", count cosine_outlier rs);
   (lit "Total Outliers", count any_outlier rs)].

(** ** The loop body in two parts, and what a step may write *)

Section ScriptParts.
Context {I : Interpreter} {C : Collaborators}.

(** Lines 109 to 172: the loop body up to the list of records, that is
    [evaluate_model] without its last step, the Report Writer. *)
Definition prepare (references original_predictions : list cell)
  (vec : vectorizer) (reference_vectors : list vector) (model_dir : str)
  : M (list sample_result) :=
  print (newline ++ lit "Evaluating BART model in: " ++ model_dir);;
  tok ← call (tokenizer_from_pretrained model_dir);
  mdl ← call (model_from_pretrained model_dir);
  max_length ← call (get_max_length_from_dir model_dir 128);
  print (lit "Using max_length=" ++ str_of_int max_length
         ++ lit " for generation...");;
  print (lit "Generating corrected predictions...");;
  bart_predictions ←
    for_each (correct tok mdl max_length) original_predictions;
  print (lit "Computing metrics for each sample...");;
  for_each (score model_dir vec reference_vectors original_predictions)
    (imap (λ i pair, (i, pair)) (zip references bart_predictions)).

End ScriptParts.

(** The three files of a model. *)
Definition report_files (model_dir : str) : list str :=
  [detailed_file model_dir; summary_file model_dir;
   outlier_counts_file model_dir].

(** A step that changes no file other than those whose name satisfies
    [P]. *)
Definition writes_only (P : str → Prop) {A} (m : M A) : Prop :=
  ∀ σ path, ¬ P path → files (m σ).2 !! path = files σ !! path.

(** A step that removes no file. *)
Definition keeps_existing {A} (m : M A) : Prop :=
  ∀ σ path, is_Some (files σ !! path) → is_Some (files (m σ).2 !! path).

(** A step that only adds lines to what has been printed. *)
Definition appends {A} (m : M A) : Prop :=
  ∀ σ, stdout σ `prefix_of` stdout (m σ).2.

(** ** The value of a run of decimal digits

    What the digit loop of [int] computes on the digits of a decimal
    number, most significant first, from the value read so far. *)
Fixpoint digits_value (value : Z) (d : Decimal.uint) : Z :=
  match d with
  | Decimal.Nil => value
  | Decimal.D0 l => digits_value (10 * value + 0) l
  | Decimal.D1 l => digits_value (10 * value + 1) l
  | Decimal.D2 l => digits_value (10 * value + 2) l
  | Decimal.D3 l => digits_value (10 * value + 3) l
  | Decimal.D4 l => digits_value (10 * value + 4) l
  | Decimal.D5 l => digits_value (10 * value + 5) l
  | Decimal.D6 l => digits_value (10 * value + 6) l
  | Decimal.D7 l => digits_value (10 * value + 7) l
  | Decimal.D8 l => digits_value (10 * value + 8) l
  | Decimal.D9 l => digits_value (10 * value + 9) l
  end.

(** The seven lines that the evaluation of a model prints when it ends
    normally. *)
Definition model_lines (model_dir : str) (max_length : Z) : list str :=
  [newline ++ lit "Evaluating BART model in: " ++ model_dir;
   lit "Using max_length=" ++ str_of_int max_length
     ++ lit " for generation...";
   lit "Generating corrected predictions...";
   lit "Computing metrics for each sample...";
   lit "Saving per-sample evaluation results to "
     ++ detailed_file model_dir ++ lit "...";
   lit "Saving summary (including outliers) results to "
     ++ summary_file model_dir ++ lit "...";
   lit "Saving outlier counts to "
     ++ outlier_counts_file model_dir ++ lit "..."].

(** A step that leaves the state as it is. *)
Definition keeps_state {A} (m : M A) : Prop := ∀ σ, (m σ).2 = σ.

(** A detailed table of model [model_dir] with [n] lines: the eight
    headers, [n] lines, each with the model's name in its first cell. *)
Definition detailed_table_of (model_dir : str) (n : nat) (t : table) : Prop :=
  header t = result_keys
  ∧ length (body t) = n
  ∧ Forall (λ line, line !! 0%nat = Some (VStr model_dir)) (body t).

(** * Properties *)

(** ** Strings: [startswith], [find] and [split] *)

Example find_first_occurrence :
  Py.find (lit "bart_ml1_ml2") (lit "_ml") = Some 4%nat.
Proof. reflexivity. Qed.

Example split_pieces :
  Py.split (lit "a_mlb_ml_mlc") (lit "_ml")
  = Ok [lit "a"; lit "b"; lit ""; lit "c"].
Proof. vm_compute. reflexivity. Qed.

Example split_without_separator :
  Py.split (lit "bart_minimal") (lit "_ml") = Ok [lit "bart_minimal"].
Proof. vm_compute. reflexivity. Qed.

Example int_spaces_sign_underscore (I : Interpreter) :
  PyInt.int (lit " +1_000 ") = Ok 1000.
Proof. vm_compute. reflexivity. Qed.

Example int_leading_zeros (I : Interpreter) : PyInt.int (lit "0064") = Ok 64.
Proof. vm_compute. reflexivity. Qed.

Example int_double_underscore (I : Interpreter) :
  PyInt.int (lit "1__0") = Raise ValueError.
Proof. vm_compute. reflexivity. Qed.

Example int_space_after_sign (I : Interpreter) :
  PyInt.int (lit "- 5") = Raise ValueError.
Proof. vm_compute. reflexivity. Qed.

Example int_empty (I : Interpreter) : PyInt.int (lit "") = Raise ValueError.
Proof. vm_compute. reflexivity. Qed.

Example int_fraction (I : Interpreter) :
  PyInt.int (lit "3.5") = Raise ValueError.
Proof. vm_compute. reflexivity. Qed.

Example max_length_with_suffix (I : Interpreter) :
  get_max_length_from_dir (lit "bart_minimal_ml32_v2") 128 = Ok 128.
Proof. vm_compute. reflexivity. Qed.

Example count_outliers_two_records :
  count_outliers (pd_DataFrame [sample_clean; sample_nan])
  = Ok [(lit "BLEU", 1%nat); (lit "WER", 1%nat); (lit "CER", 0%nat);
        (lit "Cosine Similarity", 0%nat); (lit "Total Outliers", 1%nat)].
Proof. vm_compute. reflexivity. Qed.

Example count_outliers_no_record :
  count_outliers (pd_DataFrame []) = Raise KeyError.
Proof. vm_compute. reflexivity. Qed.

Lemma split_nonempty_unfold_find s c sep :
  Py.split_nonempty s c sep =
  match Py.find s (c :: sep) with
  | None => [s]
  | Some pos =>
      take pos s :: Py.split_nonempty (drop (pos + S (length sep)) s) c sep
  end.
Proof.
  rewrite Py.split_nonempty_equation_1.
  destruct (inspect (Py.find s (c :: sep))) as [[pos|] e].
  - rewrite Py.split_nonempty_clause_1_equation_1, e. reflexivity.
  - unfold Py.split_nonempty_unfold_clause_1. rewrite e. reflexivity.
Qed.

Lemma startswith_spec s p :
  Py.startswith s p = true ↔ ∃ t, s = p ++ t.
Proof.
  revert s. induction p as [|a p IH]; intros s; simpl.
  - split; [intros _; by exists s|reflexivity].
  - destruct s as [|b s].
    + split; [discriminate|]. intros [t [=]].
    + rewrite andb_true_iff, N.eqb_eq, IH. split.
      * intros [-> [t ->]]. by exists t.
      * intros [t [= -> ->]]. split; [done|]. by exists t.
Qed.

Lemma find_Some s sep pos :
  Py.find s sep = Some pos →
  ∃ t, s = take pos s ++ sep ++ t ∧ (pos ≤ length s)%nat.
Proof.
  revert pos. induction s as [|b s IH]; intros pos; simpl.
  - destruct (Py.startswith [] sep) eqn:E; [|discriminate].
    intros [= <-]. apply startswith_spec in E as [t E]. exists t. simpl.
    split; [done|lia].
  - destruct (Py.startswith (b :: s) sep) eqn:E.
    + intros [= <-]. apply startswith_spec in E as [t E]. exists t. simpl.
      split; [done|lia].
    + destruct (Py.find s sep) as [k|] eqn:F; simpl; [|discriminate].
      intros [= <-]. destruct (IH k eq_refl) as (t & Ht & Hk).
      exists t. simpl. split; [by f_equal|lia].
Qed.

Lemma find_None_app s sep p t :
  Py.find s sep = None → s ≠ p ++ sep ++ t.
Proof.
  revert p. induction s as [|b s IH]; intros p; simpl.
  - destruct (Py.startswith [] sep) eqn:E; [discriminate|]. intros _ H.
    assert (Py.startswith [] sep = true); [|congruence].
    apply startswith_spec. destruct p; [|discriminate]. eauto.
  - destruct (Py.startswith (b :: s) sep) eqn:E; [discriminate|].
    destruct (Py.find s sep) as [k|] eqn:F; simpl; [discriminate|]. intros _ H.
    destruct p as [|a p].
    + assert (Py.startswith (b :: s) sep = true); [|congruence].
      apply startswith_spec. eauto.
    + injection H as -> ->. by eapply IH.
Qed.

Lemma find_unfold s sep :
  Py.find s sep =
  if Py.startswith s sep then Some 0%nat
  else match s with [] => None | _ :: s' => S <$> Py.find s' sep end.
Proof. by destruct s. Qed.

Lemma find_app_le p sep t :
  ∃ pos, Py.find (p ++ sep ++ t) sep = Some pos ∧ (pos ≤ length p)%nat.
Proof.
  destruct (Py.find (p ++ sep ++ t) sep) as [pos|] eqn:F.
  2:{ by eapply find_None_app in F. }
  exists pos. split; [done|].
  revert pos F. induction p as [|a p IH]; intros pos.
  - rewrite find_unfold.
    assert (Py.startswith ([] ++ sep ++ t) sep = true) as ->.
    { apply startswith_spec. by exists t. }
    intros [= <-]. simpl. lia.
  - rewrite find_unfold. destruct (Py.startswith _ sep); [intros [= <-]; lia|].
    simpl. destruct (Py.find (p ++ sep ++ t) sep) as [k|] eqn:F; simpl;
      [|discriminate].
    intros [= <-]. specialize (IH k eq_refl). lia.
Qed.

(** Two occurrences of a separator whose first character does not occur
    again in it cannot overlap. *)
Lemma occurrences_apart (c : N) (sep p t q u : str) :
  c ∉ sep →
  p ++ (c :: sep) ++ t = q ++ (c :: sep) ++ u →
  (length q < length p)%nat →
  (length q + S (length sep) ≤ length p)%nat.
Proof.
  intros Hc E Hlt.
  destruct (decide (length q + S (length sep) ≤ length p)%nat) as [|Hn];
    [done|].
  exfalso. apply Hc.
  assert ((p ++ (c :: sep) ++ t) !! length p = Some c) as H1.
  { rewrite lookup_app_r by lia. by rewrite Nat.sub_diag. }
  rewrite E in H1.
  rewrite lookup_app_r in H1 by lia.
  destruct (length p - length q)%nat as [|k] eqn:K; [lia|].
  simpl in H1. rewrite lookup_app_l in H1 by lia.
  by eapply list_elem_of_lookup_2.
Qed.

Lemma split_nonempty_last (c : N) (sep p t : str) :
  c ∉ sep →
  Py.find t (c :: sep) = None →
  last (Py.split_nonempty (p ++ (c :: sep) ++ t) c sep) = Some t.
Proof.
  intros Hc Ht. remember (length p) as n eqn:Hn.
  revert p Hn. induction n as [n IH] using lt_wf_ind. intros p ->.
  rewrite split_nonempty_unfold_find.
  destruct (find_app_le p (c :: sep) t) as (pos & F & Hle). rewrite F.
  destruct (find_Some _ _ _ F) as (u & E & _).
  assert (length (take pos (p ++ (c :: sep) ++ t)) = pos) as Hq.
  { rewrite length_take, !length_app. simpl. lia. }
  set (q := take pos (p ++ (c :: sep) ++ t)) in *.
  destruct (decide (pos = length p)) as [->|Hne].
  - assert (drop (length p + S (length sep)) (p ++ (c :: sep) ++ t) = t) as ->.
    { rewrite drop_app_add. apply (drop_app_length (c :: sep)). }
    rewrite (split_nonempty_unfold_find t), Ht. reflexivity.
  - assert (pos + S (length sep) ≤ length p)%nat as Hap.
    { rewrite <- Hq. eapply occurrences_apart; [done|exact E|lia]. }
    rewrite drop_app_le by lia.
    rewrite last_cons.
    erewrite (IH (length (drop (pos + S (length sep)) p))); [done| |done].
    rewrite length_drop. lia.
Qed.

Lemma split_nonempty_not_nil s c sep : last (Py.split_nonempty s c sep) ≠ None.
Proof.
  rewrite split_nonempty_unfold_find. destruct (Py.find s (c :: sep)).
  - rewrite last_cons. by destruct (last _).
  - done.
Qed.

Lemma contains_app sep p t : Py.contains sep (p ++ sep ++ t) = true.
Proof.
  unfold Py.contains.
  by destruct (find_app_le p sep t) as (pos & -> & _).
Qed.

(** A string that contains the separator ends with an occurrence of it
    followed by a text that does not contain it. *)
Lemma contains_last_occurrence c sep s :
  Py.contains (c :: sep) s = true →
  ∃ p t, s = p ++ (c :: sep) ++ t ∧ Py.contains (c :: sep) t = false.
Proof.
  remember (length s) as n eqn:Hn. revert s Hn.
  induction n as [n IH] using lt_wf_ind. intros s -> Hs.
  unfold Py.contains in Hs.
  destruct (Py.find s (c :: sep)) as [pos|] eqn:F; [clear Hs|discriminate].
  destruct (find_Some _ _ _ F) as (u & E & _).
  destruct (Py.contains (c :: sep) u) eqn:Hu.
  - destruct (IH (length u)) with (s := u) as (p & t & -> & Ht); [|done|done|].
    { rewrite E, !length_app. simpl. lia. }
    exists (take pos s ++ (c :: sep) ++ p), t. split; [|done].
    rewrite E at 1. by rewrite <- !app_assoc.
  - by exists (take pos s), u.
Qed.

(** ** [int]: the only exception is [ValueError] *)

Section MaxLengthProperties.
Context {I : Interpreter}.

Lemma int_raises_ValueError s e : PyInt.int s = Raise e → e = ValueError.
Proof.
  unfold PyInt.int.
  destruct (PyInt.read_sign _) as [negative s1].
  repeat case_match; congruence.
Qed.

(** A sign in front of a text that starts with a digit. *)
Lemma int_minus c t n :
  PyInt.decimal_digit c = Some n →
  ∀ v, PyInt.int (c :: t) = Ok v → PyInt.int (45%N :: c :: t) = Ok (- v).
Proof.
  intros Hc v. unfold PyInt.int.
  assert (PyInt.is_space c = false) as Hsp.
  { unfold PyInt.decimal_digit, PyInt.is_space in *.
    destruct (c <? 128)%N eqn:E.
    - destruct ((48 <=? c) && (c <=? 57))%N eqn:D; [|discriminate].
      apply andb_true_iff in D as [D1 D2].
      apply N.leb_le in D1. apply N.leb_le in D2.
      rewrite (proj2 (N.leb_gt c 13)) by lia.
      rewrite andb_false_r. simpl. apply N.eqb_neq. lia.
    - by destruct (unicode_isspace c). }
  assert ((c =? 43)%N = false ∧ (c =? 45)%N = false ∧ (c =? 95)%N = false)
    as (H43 & H45 & H95).
  { unfold PyInt.decimal_digit in Hc.
    destruct (c <? 128)%N eqn:E.
    - destruct ((48 <=? c) && (c <=? 57))%N eqn:D; [|discriminate].
      apply andb_true_iff in D as [D1 D2].
      apply N.leb_le in D1. apply N.leb_le in D2.
      repeat split; apply N.eqb_neq; lia.
    - apply N.ltb_ge in E. repeat split; apply N.eqb_neq; lia. }
  simpl. repeat (rewrite ?Hsp, ?H43, ?H45, ?H95, ?Hc; simpl).
  destruct (PyInt.scan_digits false (10 * 0 + n) 1 t)
    as [[[value digits] rest]|]; [|discriminate].
  repeat case_match; try discriminate. by intros [= <-].
Qed.

(** ** [get_max_length_from_dir] reads the text after the last marker *)

Lemma marker_first_char : 95%N ∉ [109%N; 108%N].
Proof. rewrite !elem_of_cons, elem_of_nil. by intros [?|[?|?]]. Qed.

Lemma get_max_length_after_last_marker (p t : str) (default : Z) :
  Py.contains (lit "_ml") t = false →
  get_max_length_from_dir (p ++ lit "_ml" ++ t) default =
  match PyInt.int t with
  | Ok n => Ok n
  | Raise _ => Ok default
  end.
Proof.
  intros Ht. unfold get_max_length_from_dir.
  rewrite contains_app.
  change (lit "_ml") with [95%N; 109%N; 108%N] in *.
  unfold mbind, result_bind, rbind, Py.split, Py.last_item.
  rewrite split_nonempty_last.
  - destruct (PyInt.int t) as [n|e] eqn:E; [done|].
    by rewrite (int_raises_ValueError _ _ E).
  - apply marker_first_char.
  - unfold Py.contains in Ht. by destruct (Py.find t _).
Qed.

Lemma get_max_length_returns (dir_name : str) (default : Z) :
  ∃ n, get_max_length_from_dir dir_name default = Ok n.
Proof.
  unfold get_max_length_from_dir.
  destruct (Py.contains (lit "_ml") dir_name); [|by eexists].
  change (lit "_ml") with [95%N; 109%N; 108%N].
  unfold mbind, result_bind, rbind, Py.split, Py.last_item.
  pose proof (split_nonempty_not_nil dir_name 95%N [109%N; 108%N]) as Hlast.
  destruct (last _) as [max_length_str|]; [|done].
  destruct (PyInt.int max_length_str) as [n|e] eqn:E; [by eexists|].
  rewrite (int_raises_ValueError _ _ E). by eexists.
Qed.

End MaxLengthProperties.

Lemma contains_after_minus (t : str) :
  Py.contains (lit "_ml") t = false →
  Py.contains (lit "_ml") (45%N :: t) = false.
Proof.
  unfold Py.contains. change (lit "_ml") with [95%N; 109%N; 108%N].
  rewrite (find_unfold (45%N :: t)). simpl.
  by destruct (Py.find t _).
Qed.

(** C3: with the default 128, the extraction returns the integer that
    follows the length marker when the marker is present and the text
    after it is a valid integer, and 128 otherwise: when there is no
    marker, and when the text after the marker is not an integer.
    [bart_minimal_ml32] gives 32, [bart_minimal_variant] and
    [bart_minimal_mlxyz] give 128. *)
Theorem max_length_extraction {I : Interpreter} (dir_name : str) :
  (Py.contains (lit "_ml") dir_name = false →
   get_max_length_from_dir dir_name 128 = Ok 128)
  ∧ (Py.contains (lit "_ml") dir_name = true →
     ∃ p token, dir_name = p ++ lit "_ml" ++ token
                ∧ Py.contains (lit "_ml") token = false)
  ∧ (∀ p token n,
       dir_name = p ++ lit "_ml" ++ token →
       Py.contains (lit "_ml") token = false →
       PyInt.int token = Ok n →
       get_max_length_from_dir dir_name 128 = Ok n)
  ∧ (∀ p token e,
       dir_name = p ++ lit "_ml" ++ token →
       Py.contains (lit "_ml") token = false →
       PyInt.int token = Raise e →
       get_max_length_from_dir dir_name 128 = Ok 128)
  ∧ get_max_length_from_dir (lit "bart_minimal_ml32") 128 = Ok 32
  ∧ get_max_length_from_dir (lit "bart_minimal_variant") 128 = Ok 128
  ∧ get_max_length_from_dir (lit "bart_minimal_mlxyz") 128 = Ok 128.
Proof.
  split_and!.
  - intros H. unfold get_max_length_from_dir. by rewrite H.
  - apply (contains_last_occurrence 95%N [109%N; 108%N]).
  - intros p token n -> Ht Hn.
    by rewrite get_max_length_after_last_marker, Hn.
  - intros p token e -> Ht He.
    by rewrite get_max_length_after_last_marker, He.
  - vm_compute. reflexivity.
  - vm_compute. reflexivity.
  - vm_compute. reflexivity.
Qed.

Lemma max_length_extraction_witness :
  get_max_length_from_dir (I := ascii_interpreter)
    (lit "bart_minimal_ml_ml0064") 128 = Ok 64.
Proof.
  apply (proj1 (proj2 (proj2
           (max_length_extraction (I := ascii_interpreter)
              (lit "bart_minimal_ml_ml0064"))))
           (lit "bart_minimal_ml") (lit "0064") 64);
    vm_compute; reflexivity.
Defined.

(** C4: for every directory name and every default the extraction returns
    a value, it never raises; a text after the marker that is not an
    integer yields the default. *)
Theorem max_length_never_raises {I : Interpreter} (dir_name : str)
  (default : Z) :
  (∃ n, get_max_length_from_dir dir_name default = Ok n)
  ∧ (∀ p token e,
       dir_name = p ++ lit "_ml" ++ token →
       Py.contains (lit "_ml") token = false →
       PyInt.int token = Raise e →
       get_max_length_from_dir dir_name default = Ok default).
Proof.
  split.
  - apply get_max_length_returns.
  - intros p token e -> Ht He.
    by rewrite get_max_length_after_last_marker, He.
Qed.

Lemma max_length_never_raises_witness :
  get_max_length_from_dir (I := ascii_interpreter)
    (lit "bart_minimal_ml12 34") 7 = Ok 7.
Proof.
  apply (proj2 (max_length_never_raises (I := ascii_interpreter)
                  (lit "bart_minimal_ml12 34") 7)
           (lit "bart_minimal") (lit "12 34") ValueError);
    vm_compute; reflexivity.
Defined.

(** C9: when the marker occurs several times the text after its last
    occurrence is the one parsed ([bart_minimal_ml32_ml64] gives 64); a
    minus sign in front of the digits is accepted and negates the value
    ([bart_minimal_ml-5] gives -5), and zero is returned as it is: the
    result is not checked to be positive. *)
Theorem max_length_last_marker_signed {I : Interpreter} :
  (∀ p token default,
     Py.contains (lit "_ml") token = false →
     get_max_length_from_dir (p ++ lit "_ml" ++ token) default =
     match PyInt.int token with
     | Ok n => Ok n
     | Raise _ => Ok default
     end)
  ∧ get_max_length_from_dir (lit "bart_minimal_ml32_ml64") 128 = Ok 64
  ∧ (∀ p c d digits v default,
       PyInt.decimal_digit c = Some d →
       Py.contains (lit "_ml") (c :: digits) = false →
       PyInt.int (c :: digits) = Ok v →
       get_max_length_from_dir (p ++ lit "_ml-" ++ c :: digits) default
       = Ok (- v))
  ∧ get_max_length_from_dir (lit "bart_minimal_ml-5") 128 = Ok (-5)
  ∧ get_max_length_from_dir (lit "bart_minimal_ml0") 128 = Ok 0.
Proof.
  split_and!.
  - intros. by apply get_max_length_after_last_marker.
  - vm_compute. reflexivity.
  - intros p c d digits v default Hc Ht Hv.
    change (lit "_ml-" ++ c :: digits)
      with (lit "_ml" ++ 45%N :: c :: digits).
    rewrite get_max_length_after_last_marker
      by by apply contains_after_minus.
    by erewrite int_minus.
  - vm_compute. reflexivity.
  - vm_compute. reflexivity.
Qed.

Lemma max_length_last_marker_signed_witness :
  get_max_length_from_dir (I := ascii_interpreter)
    (lit "bart_minimal_ml8_ml-16") 128 = Ok (-16).
Proof.
  apply (proj1 (proj2 (proj2
           (max_length_last_marker_signed (I := ascii_interpreter))))
           (lit "bart_minimal_ml8") 49%N 1 (lit "6") 16 128);
    vm_compute; reflexivity.
Defined.

(** ** [count_outliers] *)

Lemma getitem_metric df name col l :
  metric_column name = Some col →
  getitem df name = Ok l → l = map col (records df).
Proof.
  unfold getitem. intros ->. destruct (decide _); congruence.
Qed.

Lemma getitem_built r rs name col :
  name ∈ result_keys →
  metric_column name = Some col →
  getitem (pd_DataFrame (r :: rs)) name = Ok (map col (r :: rs)).
Proof.
  intros Hin Hcol. unfold getitem. simpl columns.
  rewrite decide_True by done. by rewrite Hcol.
Qed.

Lemma sum_map (p : sample_result → bool) rs : sum (map p rs) = count p rs.
Proof.
  unfold sum, count. induction rs as [|r rs IH]; [done|].
  simpl. destruct (p r); simpl; by rewrite IH.
Qed.

Lemma invert_between (col : sample_result → float) left right rs :
  invert (between (map col rs) left right)
  = map (λ r, negb (in_interval (col r) left right)) rs.
Proof. unfold invert, between. by rewrite !map_map. Qed.

Lemma zip_with_orb_map (p q : sample_result → bool) rs :
  zip_with orb (map p rs) (map q rs) = map (λ r, p r || q r) rs.
Proof. induction rs as [|r rs IH]; [done|]. simpl. by rewrite IH. Qed.

Lemma count_le_length p rs : (count p rs ≤ length rs)%nat.
Proof.
  unfold count. induction rs as [|r rs IH]; simpl; [lia|].
  destruct (p r); simpl; lia.
Qed.

Lemma count_any_bounds rs :
  (count bleu_outlier rs ≤ count any_outlier rs
   ∧ count wer_outlier rs ≤ count any_outlier rs
   ∧ count cer_outlier rs ≤ count any_outlier rs
   ∧ count cosine_outlier rs ≤ count any_outlier rs
   ∧ count any_outlier rs
     ≤ count bleu_outlier rs + count wer_outlier rs
       + count cer_outlier rs + count cosine_outlier rs)%nat.
Proof.
  unfold count, any_outlier. induction rs as [|r rs IH]; simpl; [lia|].
  destruct (bleu_outlier r), (wer_outlier r), (cer_outlier r),
    (cosine_outlier r); simpl; lia.
Qed.

(** The counts that [count_outliers] returns, whenever it returns. *)
Lemma count_outliers_counts df counts :
  count_outliers df = Ok counts →
  counts =
  [(lit "BLEU", count bleu_outlier (records df));
   (lit "WER", count wer_outlier (records df));
   (lit "CER", count cer_outlier (records df));
   (lit "Cosine Similarity", count cosine_outlier (records df));
   (lit "Total Outliers", count any_outlier (records df))].
Proof.
  unfold count_outliers, mbind, result_bind, rbind.
  destruct (getitem df (lit "BLEU")) as [bleu|] eqn:Hb; [|discriminate].
  destruct (getitem df (lit "WER")) as [wer|] eqn:Hw; [|discriminate].
  destruct (getitem df (lit "CER")) as [cer|] eqn:Hc; [|discriminate].
  destruct (getitem df (lit "Cosine Similarity")) as [cosine|] eqn:Hs;
    [|discriminate].
  apply (getitem_metric _ _ BLEU) in Hb; [|done].
  apply (getitem_metric _ _ WER) in Hw; [|done].
  apply (getitem_metric _ _ CER) in Hc; [|done].
  apply (getitem_metric _ _ Cosine_Similarity) in Hs; [|done].
  subst. intros [= <-]. cbn [map fst snd app logical_or_reduce foldl].
  rewrite !invert_between, !zip_with_orb_map, !sum_map.
  reflexivity.
Qed.

Lemma count_outliers_built r rs :
  ∃ counts, count_outliers (pd_DataFrame (r :: rs)) = Ok counts.
Proof.
  unfold count_outliers, mbind, result_bind, rbind.
  rewrite (getitem_built r rs (lit "BLEU") BLEU); [|vm_compute; set_solver|done].
  rewrite (getitem_built r rs (lit "WER") WER); [|vm_compute; set_solver|done].
  rewrite (getitem_built r rs (lit "CER") CER); [|vm_compute; set_solver|done].
  rewrite (getitem_built r rs (lit "Cosine Similarity") Cosine_Similarity);
    [|vm_compute; set_solver|done].
  by eexists.
Qed.

(** An IEEE comparison with a NaN on the right is false. *)
Lemma leb_nan_r (x y : float) : is_nan y = true → (x <=? y)%float = false.
Proof.
  unfold is_nan. rewrite FloatAxioms.eqb_spec, FloatAxioms.leb_spec.
  destruct (Prim2SF y) as [s|s| |s m e]; simpl.
  - discriminate.
  - destruct s; discriminate.
  - intros _. unfold SpecFloat.SFleb, SpecFloat.SFcompare.
    by destruct (Prim2SF x).
  - unfold SpecFloat.SFeqb, SpecFloat.SFcompare.
    destruct s; rewrite Z.compare_refl, Pos.compare_cont_refl; discriminate.
Qed.

Lemma in_interval_nan (x left right : float) :
  is_nan x = true → in_interval x left right = false.
Proof. intros H. unfold in_interval. by rewrite (leb_nan_r left x H). Qed.

Lemma count_insert (p : sample_result → bool) pre r post :
  p r = true → count p (pre ++ r :: post) = S (count p (pre ++ post)).
Proof.
  intros H. unfold count. rewrite !List.filter_app, !length_app. simpl.
  rewrite H. simpl. lia.
Qed.

(** C5: the outlier counts are consistent: [Total Outliers] is at least
    each of the four per-metric counts, hence their maximum, and at most
    their sum; it is the number of samples that violate at least one of the
    intervals (BLEU in [0,100], WER, CER and cosine similarity in [0,1]), so
    a sample that violates several counts once.  A frame built from a
    non-empty list of records always gets its counts. *)
Theorem outlier_counts_consistent :
  (∀ r rs, ∃ counts, count_outliers (pd_DataFrame (r :: rs)) = Ok counts)
  ∧ (∀ df counts,
       count_outliers df = Ok counts →
       ∃ bleu wer cer cosine total,
         counts = [(lit "BLEU", bleu); (lit "WER", wer); (lit "CER", cer);
                   (lit "Cosine Similarity", cosine);
                   (lit "Total Outliers", total)]
         ∧ (bleu `max` (wer `max` (cer `max` cosine)) ≤ total)%nat
         ∧ (total ≤ bleu + wer + cer + cosine)%nat
         ∧ bleu = count bleu_outlier (records df)
         ∧ wer = count wer_outlier (records df)
         ∧ cer = count cer_outlier (records df)
         ∧ cosine = count cosine_outlier (records df)
         ∧ total = count any_outlier (records df)).
Proof.
  split; [apply count_outliers_built|].
  intros df counts ->%count_outliers_counts.
  do 5 eexists. split; [reflexivity|].
  pose proof (count_any_bounds (records df)). split_and!; try done; lia.
Qed.

Lemma outlier_counts_consistent_witness :
  ∃ bleu wer cer cosine total,
    [(lit "BLEU", 1%nat); (lit "WER", 1%nat); (lit "CER", 0%nat);
     (lit "Cosine Similarity", 0%nat); (lit "Total Outliers", 1%nat)]
    = [(lit "BLEU", bleu); (lit "WER", wer); (lit "CER", cer);
       (lit "Cosine Similarity", cosine); (lit "Total Outliers", total)]
    ∧ (bleu `max` (wer `max` (cer `max` cosine)) ≤ total)%nat
    ∧ (total ≤ bleu + wer + cer + cosine)%nat
    ∧ bleu = count bleu_outlier [sample_clean; sample_nan]
    ∧ wer = count wer_outlier [sample_clean; sample_nan]
    ∧ cer = count cer_outlier [sample_clean; sample_nan]
    ∧ cosine = count cosine_outlier [sample_clean; sample_nan]
    ∧ total = count any_outlier [sample_clean; sample_nan].
Proof.
  apply (proj2 outlier_counts_consistent
           (pd_DataFrame [sample_clean; sample_nan])).
  vm_compute. reflexivity.
Defined.

(** The counts of a frame built from records among which [r] is. *)
Lemma count_outliers_with pre (r : sample_result) post :
  count_outliers (pd_DataFrame (pre ++ r :: post))
  = Ok (outlier_counts_of (pre ++ r :: post)).
Proof.
  assert (∃ r0 rs0, pre ++ r :: post = r0 :: rs0) as (r0 & rs0 & E).
  { destruct pre; simpl; eauto. }
  rewrite E. destruct (count_outliers_built r0 rs0) as [counts H].
  rewrite H. by rewrite (count_outliers_counts _ _ H).
Qed.

Lemma nan_outlier (r : sample_result) :
  (is_nan (BLEU r) = true → bleu_outlier r = true ∧ any_outlier r = true)
  ∧ (is_nan (WER r) = true → wer_outlier r = true ∧ any_outlier r = true)
  ∧ (is_nan (CER r) = true → cer_outlier r = true ∧ any_outlier r = true)
  ∧ (is_nan (Cosine_Similarity r) = true →
     cosine_outlier r = true ∧ any_outlier r = true).
Proof.
  unfold any_outlier, bleu_outlier, wer_outlier, cer_outlier, cosine_outlier.
  split_and!; intros H; rewrite (in_interval_nan _ _ _ H); simpl;
    by rewrite ?orb_true_r.
Qed.

(** C10: [count_outliers] counts a record whose metric value is NaN as an
    outlier for that metric and for the total: on a table that holds such a
    record, wherever it stands, it returns counts, and the count of the
    metric and [Total Outliers] are one more than what the other records
    give, since a NaN is in no interval and the test is negated.  On every
    table built from at least one record it returns its five counts, which
    are the numbers of records out of the intervals, and each of them lies
    between 0 and the number of records. *)
Theorem nan_is_outlier :
  (∀ x left right, is_nan x = true → in_interval x left right = false)
  ∧ (∀ pre r post,
       is_nan (BLEU r) = true →
       ∃ counts,
         count_outliers (pd_DataFrame (pre ++ r :: post)) = Ok counts
         ∧ counts !! 0%nat
           = Some (lit "BLEU", S (count bleu_outlier (pre ++ post)))
         ∧ counts !! 4%nat
           = Some (lit "Total Outliers", S (count any_outlier (pre ++ post))))
  ∧ (∀ pre r post,
       is_nan (WER r) = true →
       ∃ counts,
         count_outliers (pd_DataFrame (pre ++ r :: post)) = Ok counts
         ∧ counts !! 1%nat
           = Some (lit "WER", S (count wer_outlier (pre ++ post)))
         ∧ counts !! 4%nat
           = Some (lit "Total Outliers", S (count any_outlier (pre ++ post))))
  ∧ (∀ pre r post,
       is_nan (CER r) = true →
       ∃ counts,
         count_outliers (pd_DataFrame (pre ++ r :: post)) = Ok counts
         ∧ counts !! 2%nat
           = Some (lit "CER", S (count cer_outlier (pre ++ post)))
         ∧ counts !! 4%nat
           = Some (lit "Total Outliers", S (count any_outlier (pre ++ post))))
  ∧ (∀ pre r post,
       is_nan (Cosine_Similarity r) = true →
       ∃ counts,
         count_outliers (pd_DataFrame (pre ++ r :: post)) = Ok counts
         ∧ counts !! 3%nat
           = Some (lit "Cosine Similarity",
                   S (count cosine_outlier (pre ++ post)))
         ∧ counts !! 4%nat
           = Some (lit "Total Outliers", S (count any_outlier (pre ++ post))))
  ∧ (∀ r rs,
       ∃ counts,
         count_outliers (pd_DataFrame (r :: rs)) = Ok counts
         ∧ counts =
           [(lit "BLEU", count bleu_outlier (r :: rs));
            (lit "WER", count wer_outlier (r :: rs));
            (lit "CER", count cer_outlier (r :: rs));
            (lit "Cosine Similarity", count cosine_outlier (r :: rs));
            (lit "Total Outliers", count any_outlier (r :: rs))]
         ∧ Forall (λ item, (0 ≤ item.2 ≤ length (r :: rs))%nat) counts)
  ∧ (∀ r,
       (is_nan (BLEU r) = true → bleu_outlier r = true ∧ any_outlier r = true)
       ∧ (is_nan (WER r) = true →
          wer_outlier r = true ∧ any_outlier r = true)
       ∧ (is_nan (CER r) = true →
          cer_outlier r = true ∧ any_outlier r = true)
       ∧ (is_nan (Cosine_Similarity r) = true →
          cosine_outlier r = true ∧ any_outlier r = true))
  ∧ (∀ df counts,
       count_outliers df = Ok counts →
       counts =
         [(lit "BLEU", count bleu_outlier (records df));
          (lit "WER", count wer_outlier (records df));
          (lit "CER", count cer_outlier (records df));
          (lit "Cosine Similarity", count cosine_outlier (records df));
          (lit "Total Outliers", count any_outlier (records df))]
       ∧ Forall (λ item, (0 ≤ item.2 ≤ length (records df))%nat) counts).
Proof.
  split_and!.
  - apply in_interval_nan.
  - intros pre r post [Hm Hany]%nan_outlier. eexists.
    split; [apply count_outliers_with|]. unfold outlier_counts_of.
    by rewrite (count_insert _ _ _ _ Hm), (count_insert _ _ _ _ Hany).
  - intros pre r post H.
    destruct (nan_outlier r) as (_ & Hr & _). destruct (Hr H) as [Hm Hany].
    eexists. split; [apply count_outliers_with|]. unfold outlier_counts_of.
    by rewrite (count_insert _ _ _ _ Hm), (count_insert _ _ _ _ Hany).
  - intros pre r post H.
    destruct (nan_outlier r) as (_ & _ & Hr & _).
    destruct (Hr H) as [Hm Hany].
    eexists. split; [apply count_outliers_with|]. unfold outlier_counts_of.
    by rewrite (count_insert _ _ _ _ Hm), (count_insert _ _ _ _ Hany).
  - intros pre r post H.
    destruct (nan_outlier r) as (_ & _ & _ & Hr).
    destruct (Hr H) as [Hm Hany].
    eexists. split; [apply count_outliers_with|]. unfold outlier_counts_of.
    by rewrite (count_insert _ _ _ _ Hm), (count_insert _ _ _ _ Hany).
  - intros r rs. eexists.
    split; [apply (count_outliers_with [] r rs)|]. split; [done|].
    unfold outlier_counts_of.
    repeat (apply Forall_cons; split;
            [cbn [snd]; split; [lia|apply count_le_length]|]).
    apply Forall_nil_2.
  - apply nan_outlier.
  - intros df counts ->%count_outliers_counts. split; [done|].
    repeat (apply Forall_cons; split;
            [simpl; split; [lia|apply count_le_length]|]).
    apply Forall_nil_2.
Qed.

Lemma nan_is_outlier_witness :
  ∃ counts,
    count_outliers (pd_DataFrame [sample_clean; sample_nan]) = Ok counts
    ∧ counts !! 0%nat = Some (lit "BLEU", 1%nat)
    ∧ counts !! 4%nat = Some (lit "Total Outliers", 1%nat).
Proof.
  apply (proj1 (proj2 nan_is_outlier) [sample_clean] sample_nan []).
  vm_compute. reflexivity.
Defined.

(** ** The Dataset Loader *)

Lemma range_index_lookup {R} (rows : list R) i r :
  (i, r) ∈ range_index rows ↔ rows !! i = Some r.
Proof.
  unfold range_index. rewrite elem_of_lookup_imap. split.
  - by intros (j & x & [= -> ->] & H).
  - intros H. by exists i, r.
Qed.

Lemma imap_snd {R} (f : nat → nat) (rows : list R) :
  map snd (imap (λ i r, (f i, r)) rows) = rows.
Proof.
  revert f. induction rows as [|r rows IH]; intros f; [done|].
  simpl. f_equal. apply (IH (f ∘ S)).
Qed.

Lemma imap_fst {R} (k : nat) (rows : list R) :
  map fst (imap (λ i r, (k + i, r)%nat) rows) = seq k (length rows).
Proof.
  revert k. induction rows as [|r rows IH]; intros k; [done|].
  cbn [imap map fst length seq]. f_equal; [lia|].
  rewrite <- (IH (S k)). f_equal.
  apply imap_ext. intros i x _. simpl. f_equal. lia.
Qed.

Lemma range_index_rows {R} (rows : list R) : map snd (range_index rows) = rows.
Proof. apply (imap_snd id). Qed.

Lemma range_index_labels {R} (rows : list R) :
  map fst (range_index rows) = seq 0 (length rows).
Proof. apply (imap_fst 0). Qed.

Lemma subset_complete (r : input_row) :
  forallb (λ col : input_row → cell, notna (col r))
    [True_Transcription; Predicted_Transcription]
  = complete r.
Proof. unfold complete. simpl. by rewrite andb_true_r. Qed.

Lemma filter_rows {R} (p : R → bool) (df : frame R) :
  map snd (List.filter (λ r, p r.2) df) = List.filter p (map snd df).
Proof.
  induction df as [|[i r] df IH]; [done|].
  simpl. destruct (p r); simpl; by rewrite IH.
Qed.

Lemma dropna_rows (df : frame input_row) :
  map snd (dropna [True_Transcription; Predicted_Transcription] df)
  = List.filter complete (map snd df).
Proof.
  unfold dropna.
  rewrite (filter_rows
             (λ r, forallb (λ col : input_row → cell, notna (col r))
                     [True_Transcription; Predicted_Transcription])).
  apply List.filter_ext. intros r. apply subset_complete.
Qed.

Lemma dropna_elem (df : frame input_row) i r :
  (i, r) ∈ dropna [True_Transcription; Predicted_Transcription] df
  ↔ (i, r) ∈ df ∧ complete r = true.
Proof.
  unfold dropna. rewrite !list_elem_of_In, List.filter_In.
  cbn [snd]. by rewrite subset_complete.
Qed.

Lemma clean_rows (rows : list input_row) :
  map snd (clean (range_index rows)) = List.filter complete rows.
Proof.
  unfold clean, reset_index_drop.
  by rewrite range_index_rows, dropna_rows, range_index_rows.
Qed.

Lemma complete_false (r : input_row) :
  complete r = false
  ↔ True_Transcription r = None ∨ Predicted_Transcription r = None.
Proof.
  unfold complete, notna.
  destruct (True_Transcription r), (Predicted_Transcription r); simpl;
    intuition congruence.
Qed.

Lemma complete_true (r : input_row) :
  complete r = true
  ↔ True_Transcription r ≠ None ∧ Predicted_Transcription r ≠ None.
Proof.
  unfold complete, notna.
  destruct (True_Transcription r), (Predicted_Transcription r); simpl;
    intuition congruence.
Qed.

(** C1: the loader drops exactly the rows in which at least one of the two
    required fields is absent and keeps the others in their order, under
    the labels 0, 1, 2, ...; a table of three complete rows and one row
    that lacks only the baseline prediction, wherever it stands, yields
    three samples. *)
Theorem loader_drops_incomplete_rows (rows : list input_row) :
  (∀ i r,
     (i, r) ∈ range_index rows →
     ((i, r) ∉ dropna [True_Transcription; Predicted_Transcription]
                 (range_index rows)
      ↔ True_Transcription r = None ∨ Predicted_Transcription r = None))
  ∧ map snd (clean (range_index rows)) = List.filter complete rows
  ∧ map fst (clean (range_index rows))
    = seq 0 (length (List.filter complete rows))
  ∧ tolist True_Transcription (clean (range_index rows))
    = map True_Transcription (List.filter complete rows)
  ∧ tolist Predicted_Transcription (clean (range_index rows))
    = map Predicted_Transcription (List.filter complete rows)
  ∧ (∀ before after bad,
       rows = before ++ bad :: after →
       length (before ++ after) = 3%nat →
       Forall (λ r, complete r = true) (before ++ after) →
       True_Transcription bad ≠ None →
       Predicted_Transcription bad = None →
       length (clean (range_index rows)) = 3%nat).
Proof.
  split_and!.
  - intros i r Hin. rewrite dropna_elem, <- complete_false.
    destruct (complete r); intuition congruence.
  - apply clean_rows.
  - unfold clean, reset_index_drop.
    by rewrite range_index_labels, dropna_rows, range_index_rows.
  - unfold tolist. rewrite <- clean_rows. by rewrite map_map.
  - unfold tolist. rewrite <- clean_rows. by rewrite map_map.
  - intros before after bad -> Hlen Hall _ Hbad.
    rewrite <- (length_map snd), clean_rows.
    rewrite List.filter_app. simpl.
    assert (complete bad = false) as -> by (apply complete_false; by right).
    rewrite <- List.filter_app.
    rewrite (List.forallb_filter_id complete (before ++ after)); [done|].
    apply List.forallb_forall. intros r Hr.
    rewrite List.Forall_forall in Hall. by apply Hall.
Qed.

Lemma loader_drops_incomplete_rows_witness :
  length (clean (range_index
            [row_complete "a" "b"; row_complete "c" "d";
             row_without_prediction; row_complete "e" "f"])) = 3%nat.
Proof.
  apply (proj2 (proj2 (proj2 (proj2 (proj2
           (loader_drops_incomplete_rows
              [row_complete "a" "b"; row_complete "c" "d";
               row_without_prediction; row_complete "e" "f"])))))
           [row_complete "a" "b"; row_complete "c" "d"]
           [row_complete "e" "f"] row_without_prediction).
  - reflexivity.
  - reflexivity.
  - repeat constructor.
  - discriminate.
  - reflexivity.
Defined.

(** C2, counterexample: a row whose ground truth is present and whose
    baseline prediction alone is missing is dropped. *)
Lemma row_with_one_missing_field_is_dropped :
  ((1%nat, row_without_prediction)
     ∈ range_index [row_complete "a" "b"; row_without_prediction])
  ∧ ((1%nat, row_without_prediction)
     ∉ dropna [True_Transcription; Predicted_Transcription]
         (range_index [row_complete "a" "b"; row_without_prediction]))
  ∧ clean (range_index [row_complete "a" "b"; row_without_prediction])
    = [(0%nat, row_complete "a" "b")]
  ∧ ¬ (True_Transcription row_without_prediction = None
       ∧ Predicted_Transcription row_without_prediction = None).
Proof.
  split_and!.
  - apply range_index_lookup. reflexivity.
  - rewrite dropna_elem. intros [_ H]. discriminate.
  - reflexivity.
  - intros [H _]. discriminate.
Qed.

(** C2, amended: in every row that the loader drops at least one of the
    two required fields is missing; a row with both fields present is never
    dropped; a row in which one of them is missing is always dropped. *)
Theorem dropped_rows_miss_a_field (rows : list input_row) (i : nat)
  (r : input_row) :
  (i, r) ∈ range_index rows →
  ((i, r) ∉ dropna [True_Transcription; Predicted_Transcription]
              (range_index rows) →
   True_Transcription r = None ∨ Predicted_Transcription r = None)
  ∧ (True_Transcription r ≠ None → Predicted_Transcription r ≠ None →
     (i, r) ∈ dropna [True_Transcription; Predicted_Transcription]
                (range_index rows))
  ∧ (True_Transcription r = None ∨ Predicted_Transcription r = None →
     (i, r) ∉ dropna [True_Transcription; Predicted_Transcription]
                (range_index rows)).
Proof.
  intros Hin. rewrite dropna_elem. split_and!.
  - intros H. apply complete_false.
    destruct (complete r); intuition congruence.
  - intros H1 H2. split; [done|]. by apply complete_true.
  - intros H%complete_false [_ H']. congruence.
Qed.

Lemma dropped_rows_miss_a_field_witness :
  ((1%nat, row_without_prediction)
     ∉ dropna [True_Transcription; Predicted_Transcription]
         (range_index [row_complete "a" "b"; row_without_prediction]) →
   True_Transcription row_without_prediction = None
   ∨ Predicted_Transcription row_without_prediction = None)
  ∧ (True_Transcription row_without_prediction ≠ None →
     Predicted_Transcription row_without_prediction ≠ None →
     (1%nat, row_without_prediction)
       ∈ dropna [True_Transcription; Predicted_Transcription]
           (range_index [row_complete "a" "b"; row_without_prediction]))
  ∧ (True_Transcription row_without_prediction = None
     ∨ Predicted_Transcription row_without_prediction = None →
     (1%nat, row_without_prediction)
       ∉ dropna [True_Transcription; Predicted_Transcription]
           (range_index [row_complete "a" "b"; row_without_prediction])).
Proof.
  apply (dropped_rows_miss_a_field
           [row_complete "a" "b"; row_without_prediction] 1
           row_without_prediction).
  apply range_index_lookup. reflexivity.
Defined.

(** ** The Report Writer *)

Section ReportProperties.
Context {I : Interpreter} {C : Collaborators}.

Lemma select_metrics r rs :
  mapM (getitem (pd_DataFrame (r :: rs))) metrics
  = Ok (metric_columns (r :: rs)).
Proof.
  unfold metrics. cbn [mapM].
  rewrite (getitem_built r rs (lit "WER") WER); [|vm_compute; set_solver|done].
  rewrite (getitem_built r rs (lit "CER") CER); [|vm_compute; set_solver|done].
  rewrite (getitem_built r rs (lit "BLEU") BLEU); [|vm_compute; set_solver|done].
  rewrite (getitem_built r rs (lit "Cosine Similarity") Cosine_Similarity);
    [|vm_compute; set_solver|done].
  reflexivity.
Qed.

Lemma count_outliers_of_records r rs :
  count_outliers (pd_DataFrame (r :: rs)) = Ok (outlier_counts_of (r :: rs)).
Proof.
  destruct (count_outliers_built r rs) as [counts H]. rewrite H.
  by rewrite (count_outliers_counts _ _ H).
Qed.

(** A run of the Report Writer on a non-empty list of records, write by
    write: it ends at the first write that fails. *)
Lemma report_steps (model_dir : str) r rs (σ : state) :
  report model_dir (r :: rs) σ
  = let rs := r :: rs in
    let line1 := lit "Saving per-sample evaluation results to "
                 ++ detailed_file model_dir ++ lit "..." in
    let line2 := lit "Saving summary (including outliers) results to "
                 ++ summary_file model_dir ++ lit "..." in
    let line3 := lit "Saving outlier counts to "
                 ++ outlier_counts_file model_dir ++ lit "..." in
    let detailed := detailed_table (pd_DataFrame rs) in
    let summary := summary_table (map mean (metric_columns rs))
                     (map median (metric_columns rs)) in
    let counts := outlier_table (outlier_counts_of rs) in
    match write_file (detailed_file model_dir) detailed with
    | Failed e partial =>
        (Raise e,
         {| stdout := stdout σ ++ [line1];
            files := leave (detailed_file model_dir) partial (files σ) |})
    | Written =>
        match write_file (summary_file model_dir) summary with
        | Failed e partial =>
            (Raise e,
             {| stdout := stdout σ ++ [line1] ++ [line2];
                files := leave (summary_file model_dir) partial
                           (<[detailed_file model_dir := detailed]>
                              (files σ)) |})
        | Written =>
            match write_file (outlier_counts_file model_dir) counts with
            | Failed e partial =>
                (Raise e,
                 {| stdout := stdout σ ++ [line1] ++ [line2] ++ [line3];
                    files := leave (outlier_counts_file model_dir) partial
                               (<[summary_file model_dir := summary]>
                                  (<[detailed_file model_dir := detailed]>
                                     (files σ))) |})
            | Written =>
                (Ok (),
                 {| stdout := stdout σ ++ [line1] ++ [line2] ++ [line3];
                    files :=
                      <[outlier_counts_file model_dir := counts]>
                        (<[summary_file model_dir := summary]>
                           (<[detailed_file model_dir := detailed]>
                              (files σ))) |})
            end
        end
    end.
Proof.
  cbv zeta.
  unfold report, mbind, M_bind, bind, print, to_csv, call.
  fold (detailed_file model_dir) (summary_file model_dir)
    (outlier_counts_file model_dir).
  destruct (write_file (detailed_file model_dir) _) as [|e1 partial1];
    [|reflexivity].
  rewrite select_metrics.
  destruct (write_file (summary_file model_dir) _) as [|e2 partial2];
    cbn [stdout files]; [|by rewrite <- !app_assoc].
  rewrite count_outliers_of_records.
  destruct (write_file (outlier_counts_file model_dir) _) as [|e3 partial3];
    cbn [stdout files]; by rewrite <- !app_assoc.
Qed.

(** What a run of the Report Writer that ends normally has printed and
    written. *)
Lemma report_run (model_dir : str) r rs (σ σ' : state) :
  report model_dir (r :: rs) σ = (Ok (), σ') →
  σ' = {| stdout :=
            stdout σ
            ++ [lit "Saving per-sample evaluation results to "
                  ++ detailed_file model_dir ++ lit "..."]
            ++ [lit "Saving summary (including outliers) results to "
                  ++ summary_file model_dir ++ lit "..."]
            ++ [lit "Saving outlier counts to "
                  ++ outlier_counts_file model_dir ++ lit "..."];
          files :=
            <[outlier_counts_file model_dir :=
                outlier_table (outlier_counts_of (r :: rs))]>
              (<[summary_file model_dir :=
                   summary_table (map mean (metric_columns (r :: rs)))
                     (map median (metric_columns (r :: rs)))]>
                 (<[detailed_file model_dir :=
                      detailed_table (pd_DataFrame (r :: rs))]> (files σ))) |}.
Proof.
  rewrite report_steps. cbv zeta.
  repeat (destruct (write_file _ _); [|discriminate]).
  by intros [= <-].
Qed.

(** Whether the Report Writer ends normally does not depend on what was
    printed or written before. *)
Lemma report_outcome (model_dir : str) rs (σ1 σ2 : state) :
  (report model_dir rs σ1).1 = (report model_dir rs σ2).1.
Proof.
  destruct rs as [|r rs].
  - unfold report, mbind, M_bind, bind, print, to_csv, call.
    by destruct (write_file _ _).
  - rewrite !report_steps. cbv zeta.
    by repeat (destruct (write_file _ _); [|done]).
Qed.

End ReportProperties.

(** ** Steps of the script: inversion and state *)

Lemma bind_Ok {A B} (m : M A) (k : A → M B) σ b σ' :
  (m ≫= k) σ = (Ok b, σ') →
  ∃ a σ1, m σ = (Ok a, σ1) ∧ k a σ1 = (Ok b, σ').
Proof.
  unfold mbind, M_bind, bind. destruct (m σ) as [[a|e] σ1]; [|discriminate].
  intros H. by exists a, σ1.
Qed.

Lemma call_Ok {A} (r : result A) σ a σ' :
  call r σ = (Ok a, σ') → r = Ok a ∧ σ' = σ.
Proof. unfold call. by intros [= -> ->]. Qed.

Lemma ret_Ok {A} (x : A) σ a σ' :
  (mret x : M A) σ = (Ok a, σ') → a = x ∧ σ' = σ.
Proof. unfold mret, M_ret, ret. by intros [= -> ->]. Qed.

(** From [x ← call r; k x] ending normally: the call returned. *)
Ltac invert_call H :=
  let Hc := fresh "Hcall" in
  let Hk := fresh "Hk" in
  apply bind_Ok in H as (? & ? & Hc & Hk);
  apply call_Ok in Hc as [Hc ->];
  rename Hk into H.

Lemma keeps_files_call {A} (r : result A) : keeps_files (call r).
Proof. by intros σ. Qed.

Lemma keeps_files_ret {A} (a : A) : keeps_files (mret a : M A).
Proof. by intros σ. Qed.

Lemma keeps_files_print line : keeps_files (print line).
Proof. by intros σ. Qed.

Lemma keeps_files_bind {A B} (m : M A) (k : A → M B) :
  keeps_files m → (∀ a, keeps_files (k a)) → keeps_files (m ≫= k).
Proof.
  intros Hm Hk σ. unfold mbind, M_bind, bind.
  specialize (Hm σ). destruct (m σ) as [[a|e] σ1]; simpl in *; [|done].
  by rewrite Hk.
Qed.

(** A loop that ends normally has run its body on every item. *)
Lemma for_each_Ok {A B} (body : A → M B) xs σ ys σ' :
  for_each body xs σ = (Ok ys, σ') →
  Forall2 (λ x y, ∃ σ0 σ1, body x σ0 = (Ok y, σ1)) xs ys.
Proof.
  revert σ ys. induction xs as [|x xs IH]; intros σ ys; simpl.
  - intros [= <- <-]. constructor.
  - intros (y & σ1 & Hy & H)%bind_Ok.
    apply bind_Ok in H as (ys' & σ2 & Hys & H).
    apply ret_Ok in H as [-> ->]. constructor; [by eauto|by eapply IH].
Qed.

Lemma file_names_differ (model_dir suffix1 suffix2 : str) :
  suffix1 ≠ suffix2 → model_dir ++ suffix1 ≠ model_dir ++ suffix2.
Proof. intros Hne Heq. by apply app_inv_head in Heq. Qed.

Lemma enumerate_lookup {A} (l : list A) j i x :
  imap (λ i x, (i, x)) l !! j = Some (i, x) → i = j ∧ l !! j = Some x.
Proof.
  rewrite list_lookup_imap. destruct (l !! j); simpl; [|done].
  by intros [= <- <-].
Qed.

Section Steps.
Context {I : Interpreter} {C : Collaborators}.

Lemma score_Ok model_dir vec rvecs preds i ref bart_pred σ r σ' :
  score model_dir vec rvecs preds (i, (ref, bart_pred)) σ = (Ok r, σ') →
  Model r = model_dir ∧ True_Transcription_ r = ref
  ∧ BART_Corrected r = bart_pred
  ∧ preds !! i = Some (Original_Prediction r).
Proof.
  unfold score. intros H. repeat invert_call H.
  apply ret_Ok in H as [-> ->]. simpl. split_and!; try done.
  match goal with H : item preds i = _ |- _ => unfold item in H end.
  destruct (preds !! i); congruence.
Qed.

End Steps.

Section EvaluateProperties.
Context {I : Interpreter} {C : Collaborators}.

(** The records of a metrics loop that ended normally: one per sample, in
    order, each with its model, its reference and its original
    prediction. *)
Lemma scores_Ok model_dir vec rvecs (refs preds : list cell)
  (barts : list str) σ results σ' :
  length refs = length preds →
  length barts = length preds →
  for_each (score model_dir vec rvecs preds)
    (imap (λ i pair, (i, pair)) (zip refs barts)) σ = (Ok results, σ') →
  length results = length refs
  ∧ Forall (λ r, Model r = model_dir) results
  ∧ map True_Transcription_ results = refs
  ∧ map Original_Prediction results = preds
  ∧ map BART_Corrected results = barts.
Proof.
  intros Hrp Hbp H%for_each_Ok.
  assert (length results = length refs) as Hlen.
  { apply Forall2_length in H. rewrite length_imap, length_zip in H. lia. }
  assert (∀ j r, results !! j = Some r →
            Model r = model_dir ∧ refs !! j = Some (True_Transcription_ r)
            ∧ preds !! j = Some (Original_Prediction r)
            ∧ barts !! j = Some (BART_Corrected r)) as Hr.
  { intros j r Hj.
    destruct (Forall2_lookup_r _ _ _ _ _ H Hj)
      as ([i [ref bart]] & He & σ0 & σ1 & Hs).
    apply enumerate_lookup in He as [-> He].
    apply lookup_zip_with_Some in He as (ref' & bart' & [= <- <-] & Hr & Hb).
    apply score_Ok in Hs as (? & <- & <- & ?). done. }
  split_and!; [done| | | |].
  - apply Forall_lookup. intros j r Hj. by apply Hr in Hj as (? & _).
  - apply list_eq. intros j. rewrite list_lookup_fmap.
    destruct (results !! j) as [r|] eqn:Hj; simpl.
    + by apply Hr in Hj as (_ & -> & _).
    + apply lookup_ge_None in Hj. symmetry. apply lookup_ge_None. lia.
  - apply list_eq. intros j. rewrite list_lookup_fmap.
    destruct (results !! j) as [r|] eqn:Hj; simpl.
    + by apply Hr in Hj as (_ & _ & -> & _).
    + apply lookup_ge_None in Hj. symmetry. apply lookup_ge_None. lia.
  - apply list_eq. intros j. rewrite list_lookup_fmap.
    destruct (results !! j) as [r|] eqn:Hj; simpl.
    + by apply Hr in Hj as (_ & _ & _ & ->).
    + apply lookup_ge_None in Hj. symmetry. apply lookup_ge_None. lia.
Qed.

End EvaluateProperties.

(** C6, counterexample: the run over one model directory and the stand-in
    collaborators writes a detailed table whose fourth header is
    [BART Corrected], not [Corrected Output]. *)
Lemma detailed_header_differs :
  header <$> (files (main (I := ascii_interpreter)
                       (C := stand_in [(lit "bart_minimal_ml32", true)])
                       (initial ∅)).2
              !! lit "bart_minimal_ml32_detailed_evaluation.csv")
  = Some [lit "Model"; lit "True Transcription"; lit "Original Prediction";
          lit "BART Corrected"; lit "WER"; lit "CER"; lit "BLEU";
          lit "Cosine Similarity"]
  ∧ header <$> (files (main (I := ascii_interpreter)
                         (C := stand_in [(lit "bart_minimal_ml32", true)])
                         (initial ∅)).2
                !! lit "bart_minimal_ml32_detailed_evaluation.csv")
    ≠ Some spec_detailed_columns.
Proof. split; [vm_compute; reflexivity|vm_compute; discriminate]. Qed.

(** C6, amended: for every model evaluated on at least one sample, the
    detailed CSV that the Report Writer writes has the column headers Model,
    True Transcription, Original Prediction, BART Corrected, WER, CER, BLEU,
    Cosine Similarity, in that order, and one row per sample, in the order
    of the samples, with the sample's own model, reference, original
    prediction, correction and four scores: nothing is aggregated. *)
Theorem detailed_table_written {I : Interpreter} {C : Collaborators}
  (refs preds : list cell) vec rvecs (model_dir : str) σ σ' :
  length refs = length preds →
  refs ≠ [] →
  evaluate_model refs preds vec rvecs model_dir σ = (Ok (), σ') →
  ∃ results,
    files σ' !! (model_dir ++ lit "_detailed_evaluation.csv")
    = Some {| header :=
                [lit "Model"; lit "True Transcription";
                 lit "Original Prediction"; lit "BART Corrected";
                 lit "WER"; lit "CER"; lit "BLEU"; lit "Cosine Similarity"];
              body :=
                map (λ r, [VStr (Model r); VCell (True_Transcription_ r);
                           VCell (Original_Prediction r);
                           VStr (BART_Corrected r);
                           VFloat (WER r); VFloat (CER r); VFloat (BLEU r);
                           VFloat (Cosine_Similarity r)]) results |}
    ∧ length results = length refs
    ∧ Forall (λ r, Model r = model_dir) results
    ∧ map True_Transcription_ results = refs
    ∧ map Original_Prediction results = preds.
Proof.
  intros Hrp Hne H. unfold evaluate_model in H.
  apply bind_Ok in H as ([] & σ1 & _ & H).
  do 3 invert_call H.
  apply bind_Ok in H as ([] & σ2 & _ & H).
  apply bind_Ok in H as ([] & σ3 & _ & H).
  apply bind_Ok in H as (barts & σ4 & Hgen & H).
  apply bind_Ok in H as ([] & σ5 & _ & H).
  apply bind_Ok in H as (results & σ6 & Hsc & H).
  apply for_each_Ok, Forall2_length in Hgen.
  apply scores_Ok in Hsc as (Hlen & Hmodel & Hrefs & Hpreds & _);
    [|done|done].
  exists results. split_and!; try done.
  destruct results as [|r rs].
  { destruct refs; [done|discriminate]. }
  apply report_run in H as ->. cbn [files].
  rewrite lookup_insert_ne, lookup_insert_ne, lookup_insert_eq; [done| |].
  - by apply file_names_differ.
  - by apply file_names_differ.
Qed.

Lemma detailed_table_written_witness :
  ∃ results,
    files (evaluate_model (I := ascii_interpreter) (C := stand_in [])
             [Some (lit "the cat sat")] [Some (lit "the cat sit")] () [()]
             (lit "bart_minimal_ml32") (initial ∅)).2
    !! (lit "bart_minimal_ml32" ++ lit "_detailed_evaluation.csv")
    = Some {| header :=
                [lit "Model"; lit "True Transcription";
                 lit "Original Prediction"; lit "BART Corrected";
                 lit "WER"; lit "CER"; lit "BLEU"; lit "Cosine Similarity"];
              body :=
                map (λ r, [VStr (Model r); VCell (True_Transcription_ r);
                           VCell (Original_Prediction r);
                           VStr (BART_Corrected r);
                           VFloat (WER r); VFloat (CER r); VFloat (BLEU r);
                           VFloat (Cosine_Similarity r)]) results |}
    ∧ length results = length [Some (lit "the cat sat")]
    ∧ Forall (λ r, Model r = lit "bart_minimal_ml32") results
    ∧ map True_Transcription_ results = [Some (lit "the cat sat")]
    ∧ map Original_Prediction results = [Some (lit "the cat sit")].
Proof.
  apply (detailed_table_written (I := ascii_interpreter) (C := stand_in [])
           [Some (lit "the cat sat")] [Some (lit "the cat sit")] () [()]
           (lit "bart_minimal_ml32") (initial ∅)).
  - reflexivity.
  - discriminate.
  - vm_compute. reflexivity.
Defined.

(** ** The aggregation depends on the scores alone *)

Lemma aggregation_of_scores (rs1 rs2 : list sample_result) :
  map metric_values rs1 = map metric_values rs2 →
  metric_columns rs1 = metric_columns rs2
  ∧ outlier_counts_of rs1 = outlier_counts_of rs2.
Proof.
  unfold metric_columns, outlier_counts_of, count.
  revert rs2. induction rs1 as [|r1 rs1 IH]; intros [|r2 rs2]; try done.
  simpl. intros [= Hw Hc Hb Hs Hrest].
  destruct (IH rs2 Hrest) as [[= IH1 IH2 IH3 IH4] [= IH5 IH6 IH7 IH8 IH9]].
  unfold any_outlier, bleu_outlier, wer_outlier, cer_outlier, cosine_outlier
    in *.
  rewrite Hw, Hc, Hb, Hs, IH1, IH2, IH3, IH4. split; [done|].
  repeat (destruct (negb _)); simpl; congruence.
Qed.

(** Writing the same three files twice leaves what writing them once
    leaves. *)
Lemma insert_thrice_twice (fs : gmap str table) k1 k2 k3 t1 t2 t3 :
  <[k3 := t3]> (<[k2 := t2]> (<[k1 := t1]>
     (<[k3 := t3]> (<[k2 := t2]> (<[k1 := t1]> fs)))))
  = <[k3 := t3]> (<[k2 := t2]> (<[k1 := t1]> fs)).
Proof.
  apply map_eq. intros k. rewrite !lookup_insert.
  repeat case_decide; done.
Qed.

(** C7: the summary table (the mean and the median of each metric over all
    the records) and the outlier-count table that the Report Writer writes
    are a function of the scores of the records alone: two runs that end
    normally on record sets with the same scores, from any two states,
    whatever was printed or written before and whatever the model directory
    is called, have written the same two tables, which are the aggregation
    of the scores; and running the Report Writer again on the same records
    leaves every file as the first run left it.  A run on at least one
    record ends normally whenever its three files can be written. *)
Theorem report_tables_deterministic {I : Interpreter} {C : Collaborators}
  (dir1 dir2 : str) (rs1 rs2 : list sample_result) (σ1 σ2 : state) :
  rs1 ≠ [] →
  map metric_values rs1 = map metric_values rs2 →
  ((∀ path t, path ∈ report_files dir1 → write_file path t = Written) →
   (report dir1 rs1 σ1).1 = Ok ())
  ∧ ((report dir1 rs1 σ1).1 = Ok () →
     (report dir2 rs2 σ2).1 = Ok () →
     files (report dir1 rs1 σ1).2 !! (dir1 ++ lit "_summary_evaluation.csv")
     = Some (summary_table (map mean (metric_columns rs1))
               (map median (metric_columns rs1)))
     ∧ files (report dir1 rs1 σ1).2 !! (dir1 ++ lit "_outlier_counts.csv")
       = Some (outlier_table (outlier_counts_of rs1))
     ∧ files (report dir2 rs2 σ2).2 !! (dir2 ++ lit "_summary_evaluation.csv")
       = files (report dir1 rs1 σ1).2
         !! (dir1 ++ lit "_summary_evaluation.csv")
     ∧ files (report dir2 rs2 σ2).2 !! (dir2 ++ lit "_outlier_counts.csv")
       = files (report dir1 rs1 σ1).2 !! (dir1 ++ lit "_outlier_counts.csv")
     ∧ (report dir2 rs2 σ2).1 = (report dir1 rs1 σ1).1
     ∧ files ((report dir1 rs1 ≫= λ _, report dir1 rs1) σ1).2
       = files (report dir1 rs1 σ1).2).
Proof.
  intros Hne Hscores.
  destruct (aggregation_of_scores rs1 rs2 Hscores) as [Hcols Hcounts].
  destruct rs1 as [|r1 rs1]; [done|]. destruct rs2 as [|r2 rs2]; [done|].
  split.
  { intros Hw. rewrite report_steps. cbv zeta. unfold report_files in Hw.
    rewrite !Hw; [done|rewrite !elem_of_cons; tauto..]. }
  intros Hrun1 Hrun2.
  unfold mbind at 1, M_bind, bind.
  destruct (report dir1 (r1 :: rs1) σ1) as [o1 σ1'] eqn:E1.
  destruct (report dir2 (r2 :: rs2) σ2) as [o2 σ2'] eqn:E2.
  cbn [fst] in Hrun1, Hrun2. subst o1 o2.
  pose proof (report_outcome dir1 (r1 :: rs1) σ1' σ1) as Hagain.
  rewrite E1 in Hagain. cbn [fst] in Hagain.
  destruct (report dir1 (r1 :: rs1) σ1') as [o3 σ3] eqn:E3.
  cbn [fst] in Hagain. subst o3.
  apply report_run in E1, E2, E3. subst σ3 σ2' σ1'. cbn [fst snd files].
  rewrite Hcols, Hcounts.
  assert (∀ d : str, d ++ lit "_summary_evaluation.csv"
                     ≠ d ++ lit "_outlier_counts.csv") as Hso.
  { intros d. by apply file_names_differ. }
  unfold summary_file, outlier_counts_file, detailed_file.
  rewrite !lookup_insert_eq, !(lookup_insert_ne _ _ _ _ (not_eq_sym (Hso _))),
    !lookup_insert_eq.
  split_and!; try done. apply insert_thrice_twice.
Qed.

Lemma report_tables_deterministic_witness :
  files (report (C := stand_in []) (lit "bart_minimal_ml32")
           [sample_clean; sample_nan] (initial ∅)).2
    !! (lit "bart_minimal_ml32" ++ lit "_outlier_counts.csv")
  = Some (outlier_table (outlier_counts_of [sample_clean; sample_nan])).
Proof.
  refine (proj1 (proj2
            (proj2
               (report_tables_deterministic (I := ascii_interpreter)
                  (C := stand_in [])
                  (lit "bart_minimal_ml32") (lit "bart_minimal")
                  [sample_clean; sample_nan] [sample_clean; sample_nan]
                  (initial ∅) (initial ∅) _ _) _ _))).
  - discriminate.
  - reflexivity.
  - vm_compute. reflexivity.
  - vm_compute. reflexivity.
Defined.

(** ** Model discovery *)

Section DiscoveryProperties.
Context {I : Interpreter} {C : Collaborators}.








End DiscoveryProperties.


Lemma appends_ret {A} (a : A) : appends (mret a : M A).
Proof. by intros σ. Qed.






Section AnnouncementProperties.
Context {I : Interpreter} {C : Collaborators}.






End AnnouncementProperties.




(** * Further properties of the script *)

(** ** The loader's output *)

Lemma filter_filter {A} (p : A → bool) (l : list A) :
  List.filter p (List.filter p l) = List.filter p l.
Proof.
  induction l as [|x l IH]; [done|]. simpl.
  destruct (p x) eqn:E; simpl; [|done]. by rewrite E, IH.
Qed.

Lemma clean_range_index (df : frame input_row) :
  clean df = range_index (List.filter complete (map snd df)).
Proof. unfold clean, reset_index_drop. by rewrite dropna_rows. Qed.

Section LoaderProperties.
Context {I : Interpreter} {C : Collaborators}.

(** X1: when the loader returns, its two lists have the same length, one
    entry per complete row of the file, no entry of either is a missing
    value, nothing has been written, the only line printed is the loading
    line, and cleaning the cleaned table again changes nothing. *)
Theorem load_aligned (σ σ' : state)
  (references original_predictions : list cell) :
  load σ = (Ok (references, original_predictions), σ') →
  length references = length original_predictions
  ∧ Forall (λ c, c ≠ None) references
  ∧ Forall (λ c, c ≠ None) original_predictions
  ∧ (∃ rows,
       read_csv file_path = Ok rows
       ∧ length references = length (List.filter complete rows)
       ∧ clean (clean (range_index rows)) = clean (range_index rows))
  ∧ files σ' = files σ
  ∧ stdout σ' = stdout σ ++ [lit "Loading test data..."].
Proof.
  unfold load. intros H.
  apply bind_Ok in H as ([] & σ1 & Hp & H). injection Hp as <-.
  invert_call H. apply ret_Ok in H as [[= -> ->] ->].
  rename x into rows. unfold tolist.
  assert (Forall (λ r : nat * input_row, complete r.2 = true)
            (clean (range_index rows))) as Hall.
  { apply Forall_forall. intros [i r] Hin.
    assert (r ∈ map snd (clean (range_index rows))) as Hr.
    { apply list_elem_of_fmap. by exists (i, r). }
    rewrite clean_rows, list_elem_of_In, List.filter_In in Hr. by destruct Hr. }
  split_and!.
  - by rewrite !length_map.
  - apply Forall_fmap. eapply Forall_impl; [exact Hall|].
    intros [i r] Hr. simpl in *. by apply complete_true in Hr as [? _].
  - apply Forall_fmap. eapply Forall_impl; [exact Hall|].
    intros [i r] Hr. simpl in *. by apply complete_true in Hr as [_ ?].
  - exists rows. split_and!; [done| |].
    + by rewrite length_map, <- (length_map snd), clean_rows.
    + rewrite (clean_range_index (clean _)), clean_rows, filter_filter.
      by rewrite clean_range_index, range_index_rows.
  - done.
  - done.
Qed.

End LoaderProperties.

Lemma load_aligned_witness :
  length [Some (lit "the cat sat"); Some (lit "good night")]
  = length [Some (lit "the cat sit"); Some (lit "good knight")]
  ∧ Forall (λ c, c ≠ None) [Some (lit "the cat sat"); Some (lit "good night")]
  ∧ Forall (λ c, c ≠ None) [Some (lit "the cat sit"); Some (lit "good knight")]
  ∧ (∃ rows,
       read_csv (Collaborators := stand_in []) file_path = Ok rows
       ∧ length [Some (lit "the cat sat"); Some (lit "good night")]
         = length (List.filter complete rows)
       ∧ clean (clean (range_index rows)) = clean (range_index rows))
  ∧ files {| stdout := [lit "Loading test data..."]; files := ∅ |}
    = files (initial ∅)
  ∧ stdout {| stdout := [lit "Loading test data..."]; files := ∅ |}
    = stdout (initial ∅) ++ [lit "Loading test data..."].
Proof.
  apply (load_aligned (C := stand_in []) (initial ∅)). reflexivity.
Defined.

(** ** Model discovery: what is selected *)

(** X2: the discovery selects exactly the entries of the listing that are
    directories and whose name is [bart_minimal] followed by anything,
    keeps them in the order of the listing, and selects no more entries
    than the listing has. *)
Theorem discover_selects {C : Collaborators} (entries : list str) :
  (∀ d, d ∈ discover entries
        ↔ d ∈ entries ∧ isdir d = true
          ∧ ∃ rest, d = lit "bart_minimal" ++ rest)
  ∧ sublist (discover entries) entries
  ∧ (length (discover entries) ≤ length entries)%nat.
Proof.
  assert (sublist (discover entries) entries) as Hsub.
  { unfold discover. induction entries as [|d entries IH]; [done|].
    simpl. destruct (isdir d && _).
    - by apply sublist_skip.
    - by apply sublist_cons. }
  split_and!; [|done|by apply sublist_length].
  intros d. unfold discover.
  rewrite !list_elem_of_In, List.filter_In, andb_true_iff, startswith_spec.
  tauto.
Qed.

(** ** [count_outliers]: concatenation, order and the clean case *)

Lemma count_app p rs1 rs2 :
  count p (rs1 ++ rs2) = (count p rs1 + count p rs2)%nat.
Proof. unfold count. by rewrite List.filter_app, length_app. Qed.

Lemma count_Permutation p rs1 rs2 :
  rs1 ≡ₚ rs2 → count p rs1 = count p rs2.
Proof.
  unfold count. induction 1 as [|r ? ? ? IH|r1 r2 ?|? ? ? ? IH1 ? IH2]; simpl.
  - done.
  - destruct (p r); simpl; by rewrite IH.
  - by destruct (p r1), (p r2).
  - by rewrite IH1.
Qed.

Lemma count_zero p rs :
  count p rs = 0%nat ↔ Forall (λ r, p r = false) rs.
Proof.
  unfold count. induction rs as [|r rs IH]; simpl.
  - split; [constructor|done].
  - rewrite Forall_cons. destruct (p r); simpl; [|by rewrite IH; tauto].
    split; [done|]. by intros [? _].
Qed.

(** X3: the counts of two tables put one after the other are the sums of
    their counts, metric by metric and for the total. *)
Theorem count_outliers_concat (r1 r2 : sample_result)
  (rs1 rs2 : list sample_result) :
  ∃ counts1 counts2,
    count_outliers (pd_DataFrame (r1 :: rs1)) = Ok counts1
    ∧ count_outliers (pd_DataFrame (r2 :: rs2)) = Ok counts2
    ∧ count_outliers (pd_DataFrame ((r1 :: rs1) ++ r2 :: rs2))
      = Ok (zip_with (λ a b, (a.1, (a.2 + b.2)%nat)) counts1 counts2).
Proof.
  exists (outlier_counts_of (r1 :: rs1)), (outlier_counts_of (r2 :: rs2)).
  split_and!; [apply count_outliers_of_records..|].
  change ((r1 :: rs1) ++ r2 :: rs2) with (r1 :: (rs1 ++ r2 :: rs2)).
  rewrite count_outliers_of_records. unfold outlier_counts_of.
  change (r1 :: (rs1 ++ r2 :: rs2)) with ((r1 :: rs1) ++ r2 :: rs2).
  by rewrite !count_app.
Qed.

(** X4: the result of [count_outliers] does not depend on the order of the
    records. *)
Theorem count_outliers_order (rs1 rs2 : list sample_result) :
  rs1 ≡ₚ rs2 →
  count_outliers (pd_DataFrame rs1) = count_outliers (pd_DataFrame rs2).
Proof.
  intros Hp. destruct rs1 as [|r1 rs1], rs2 as [|r2 rs2].
  - done.
  - by apply Permutation_nil_cons in Hp.
  - symmetry in Hp. by apply Permutation_nil_cons in Hp.
  - rewrite !count_outliers_of_records. unfold outlier_counts_of.
    by rewrite !(count_Permutation _ _ _ Hp).
Qed.

Lemma count_outliers_order_witness :
  count_outliers (pd_DataFrame [sample_clean; sample_nan])
  = count_outliers (pd_DataFrame [sample_nan; sample_clean]).
Proof. apply count_outliers_order. apply Permutation_swap. Defined.

(** X5: [Total Outliers] is 0 exactly when the four per-metric counts are
    0, and exactly when every record has its four scores inside their
    intervals, ends included. *)
Theorem no_outlier_iff (df : DataFrame) (counts : list (str * nat)) :
  count_outliers df = Ok counts →
  ∃ bleu wer cer cosine total,
    counts = [(lit "BLEU", bleu); (lit "WER", wer); (lit "CER", cer);
              (lit "Cosine Similarity", cosine);
              (lit "Total Outliers", total)]
    ∧ (total = 0%nat
       ↔ bleu = 0%nat ∧ wer = 0%nat ∧ cer = 0%nat ∧ cosine = 0%nat)
    ∧ (total = 0%nat
       ↔ Forall (λ r, in_interval (BLEU r) 0 100 = true
                      ∧ in_interval (WER r) 0 1 = true
                      ∧ in_interval (CER r) 0 1 = true
                      ∧ in_interval (Cosine_Similarity r) 0 1 = true)
           (records df)).
Proof.
  intros ->%count_outliers_counts. do 5 eexists. split; [reflexivity|].
  pose proof (count_any_bounds (records df)). split; [lia|].
  rewrite count_zero. apply Forall_iff. intros r.
  unfold any_outlier, bleu_outlier, wer_outlier, cer_outlier, cosine_outlier.
  destruct (in_interval (BLEU r) 0 100), (in_interval (WER r) 0 1),
    (in_interval (CER r) 0 1), (in_interval (Cosine_Similarity r) 0 1);
    simpl; intuition congruence.
Qed.

Lemma no_outlier_iff_witness :
  ∃ bleu wer cer cosine total,
    [(lit "BLEU", 0%nat); (lit "WER", 0%nat); (lit "CER", 0%nat);
     (lit "Cosine Similarity", 0%nat); (lit "Total Outliers", 0%nat)]
    = [(lit "BLEU", bleu); (lit "WER", wer); (lit "CER", cer);
       (lit "Cosine Similarity", cosine); (lit "Total Outliers", total)]
    ∧ (total = 0%nat
       ↔ bleu = 0%nat ∧ wer = 0%nat ∧ cer = 0%nat ∧ cosine = 0%nat)
    ∧ (total = 0%nat
       ↔ Forall (λ r, in_interval (BLEU r) 0 100 = true
                      ∧ in_interval (WER r) 0 1 = true
                      ∧ in_interval (CER r) 0 1 = true
                      ∧ in_interval (Cosine_Similarity r) 0 1 = true)
           (records (pd_DataFrame [sample_clean]))).
Proof.
  apply (no_outlier_iff (pd_DataFrame [sample_clean])).
  vm_compute. reflexivity.
Defined.

(** ** The loop body: preparation, then the reports *)


Lemma keeps_files_for_each {A B} (body : A → M B) xs :
  (∀ x, keeps_files (body x)) → keeps_files (for_each body xs).
Proof.
  intros Hb. induction xs as [|x xs IH]; simpl.
  - by intros σ.
  - apply keeps_files_bind; [done|]. intros y.
    apply keeps_files_bind; [done|]. intros ys. by intros σ.
Qed.

Section PrepareProperties.
Context {I : Interpreter} {C : Collaborators}.

Lemma keeps_files_correct tok mdl max_length pred_text :
  keeps_files (correct tok mdl max_length pred_text).
Proof.
  unfold correct.
  repeat (apply keeps_files_bind; [apply keeps_files_call|intros ?]).
  apply keeps_files_call.
Qed.

Lemma keeps_files_score model_dir vec rvecs preds entry :
  keeps_files (score model_dir vec rvecs preds entry).
Proof.
  destruct entry as [i [ref bart_pred]]. unfold score.
  repeat (apply keeps_files_bind; [apply keeps_files_call|intros ?]).
  by intros σ.
Qed.

Lemma keeps_files_prepare refs preds vec rvecs model_dir :
  keeps_files (prepare refs preds vec rvecs model_dir).
Proof.
  unfold prepare.
  apply keeps_files_bind; [apply keeps_files_print|intros _].
  do 3 (apply keeps_files_bind; [apply keeps_files_call|intros ?]).
  do 2 (apply keeps_files_bind; [apply keeps_files_print|intros _]).
  apply keeps_files_bind.
  { apply keeps_files_for_each. intros. apply keeps_files_correct. }
  intros barts.
  apply keeps_files_bind; [apply keeps_files_print|intros _].
  apply keeps_files_for_each. intros. apply keeps_files_score.
Qed.

(** The loop body is the preparation followed by the Report Writer. *)
Lemma evaluate_model_split refs preds vec rvecs model_dir σ :
  evaluate_model refs preds vec rvecs model_dir σ
  = (prepare refs preds vec rvecs model_dir ≫= report model_dir) σ.
Proof.
  unfold evaluate_model, prepare, mbind, M_bind, bind, call, print.
  destruct (tokenizer_from_pretrained model_dir) as [tok|]; [|done].
  destruct (model_from_pretrained model_dir) as [mdl|]; [|done].
  destruct (get_max_length_from_dir model_dir 128) as [max_length|]; [|done].
  destruct (for_each (correct tok mdl max_length) preds _)
    as [[barts|] σ4]; [|done].
  by destruct (for_each (score model_dir vec rvecs preds) _ _)
    as [[results|] σ6].
Qed.

End PrepareProperties.

Lemma item_Ok {A} (l : list A) i x : item l i = Ok x → l !! i = Some x.
Proof. unfold item. destruct (l !! i); congruence. Qed.

Section RowProperties.
Context {I : Interpreter} {C : Collaborators}.

Lemma correct_Ok tok mdl max_length pred_text σ bart_pred σ' :
  correct tok mdl max_length pred_text σ = (Ok bart_pred, σ') →
  ∃ inputs outputs,
    tokenize tok pred_text max_length = Ok inputs
    ∧ generate mdl inputs max_length = Ok outputs
    ∧ decode tok outputs = Ok bart_pred.
Proof.
  unfold correct. intros H. do 2 invert_call H.
  apply call_Ok in H as [H _]. eauto.
Qed.

Lemma score_Ok_scores model_dir vec rvecs preds i ref bart_pred σ r σ' :
  score model_dir vec rvecs preds (i, (ref, bart_pred)) σ = (Ok r, σ') →
  wer ref bart_pred = Ok (WER r)
  ∧ cer ref bart_pred = Ok (CER r)
  ∧ corpus_bleu bart_pred ref = Ok (BLEU r)
  ∧ ∃ ref_vector bart_vector similarities row,
      rvecs !! i = Some ref_vector
      ∧ tfidf_transform vec [Some bart_pred] = Ok bart_vector
      ∧ cosine_similarity [ref_vector] bart_vector = Ok similarities
      ∧ similarities !! 0%nat = Some row
      ∧ row !! 0%nat = Some (Cosine_Similarity r).
Proof.
  unfold score. intros H. repeat invert_call H.
  apply ret_Ok in H as [-> ->]. simpl. split_and!; try done.
  repeat match goal with
         | H : item _ _ = Ok _ |- _ => apply item_Ok in H
         end.
  eauto 10.
Qed.

(** The report of no record does not end normally: if the detailed file,
    which gets no header and no line, is written, the selection of the
    metric columns fails. *)
Lemma report_no_record (model_dir : str) (σ : state) :
  report model_dir [] σ
  = match write_file (detailed_file model_dir)
            {| header := []; body := [] |} with
    | Written =>
        (Raise KeyError,
         {| stdout :=
              stdout σ
              ++ [lit "Saving per-sample evaluation results to "
                    ++ detailed_file model_dir ++ lit "..."];
            files :=
              <[detailed_file model_dir := {| header := []; body := [] |}]>
                (files σ) |})
    | Failed e partial =>
        (Raise e,
         {| stdout :=
              stdout σ
              ++ [lit "Saving per-sample evaluation results to "
                    ++ detailed_file model_dir ++ lit "..."];
            files := leave (detailed_file model_dir) partial (files σ) |})
    end.
Proof.
  unfold report, mbind, M_bind, bind, print, to_csv, call.
  fold (detailed_file model_dir).
  change (detailed_table (pd_DataFrame []))
    with {| header := []; body := [] |}.
  by destruct (write_file _ _).
Qed.

Lemma report_Ok_records model_dir results σ σ' :
  report model_dir results σ = (Ok (), σ') → results ≠ [].
Proof.
  intros H ->. rewrite report_no_record in H.
  by destruct (write_file _ _).
Qed.

(** What the preparation of a model returns when it ends normally. *)
Lemma prepare_Ok refs preds vec rvecs model_dir σ results σ' :
  length refs = length preds →
  prepare refs preds vec rvecs model_dir σ = (Ok results, σ') →
  length results = length refs
  ∧ ∃ tok mdl max_length,
      tokenizer_from_pretrained model_dir = Ok tok
      ∧ model_from_pretrained model_dir = Ok mdl
      ∧ get_max_length_from_dir model_dir 128 = Ok max_length
      ∧ ∀ i r,
          results !! i = Some r →
          Model r = model_dir
          ∧ refs !! i = Some (True_Transcription_ r)
          ∧ preds !! i = Some (Original_Prediction r)
          ∧ (∃ inputs outputs,
               tokenize tok (Original_Prediction r) max_length = Ok inputs
               ∧ generate mdl inputs max_length = Ok outputs
               ∧ decode tok outputs = Ok (BART_Corrected r))
          ∧ wer (True_Transcription_ r) (BART_Corrected r) = Ok (WER r)
          ∧ cer (True_Transcription_ r) (BART_Corrected r) = Ok (CER r)
          ∧ corpus_bleu (BART_Corrected r) (True_Transcription_ r)
            = Ok (BLEU r)
          ∧ ∃ ref_vector bart_vector similarities row,
              rvecs !! i = Some ref_vector
              ∧ tfidf_transform vec [Some (BART_Corrected r)]
                = Ok bart_vector
              ∧ cosine_similarity [ref_vector] bart_vector = Ok similarities
              ∧ similarities !! 0%nat = Some row
              ∧ row !! 0%nat = Some (Cosine_Similarity r).
Proof.
  intros Hrp H. unfold prepare in H.
  apply bind_Ok in H as ([] & σ1 & _ & H).
  apply bind_Ok in H as (tok & ? & [Htok ->]%call_Ok & H).
  apply bind_Ok in H as (mdl & ? & [Hmdl ->]%call_Ok & H).
  apply bind_Ok in H as (max_length & ? & [Hml ->]%call_Ok & H).
  apply bind_Ok in H as ([] & σ2 & _ & H).
  apply bind_Ok in H as ([] & σ3 & _ & H).
  apply bind_Ok in H as (barts & σ4 & Hgen & H).
  apply bind_Ok in H as ([] & σ5 & _ & H).
  apply for_each_Ok in Hgen.
  pose proof (Forall2_length _ _ _ Hgen) as Hlen. symmetry in Hlen.
  pose proof H as Hsc.
  apply scores_Ok in Hsc as (Hlr & _ & Hrefs & Hpreds & Hbarts);
    [|done|done].
  split; [done|]. exists tok, mdl, max_length. split_and!; try done.
  intros i r Hi. apply for_each_Ok in H.
  destruct (Forall2_lookup_r _ _ _ _ _ H Hi)
    as ([j [ref bart]] & He & σ0 & σ0' & Hs).
  apply enumerate_lookup in He as [-> He].
  apply lookup_zip_with_Some in He as (? & ? & [= <- <-] & Href & Hbart).
  pose proof (score_Ok _ _ _ _ _ _ _ _ _ _ Hs) as (Hm & <- & <- & Hop).
  pose proof (score_Ok_scores _ _ _ _ _ _ _ _ _ _ Hs) as (? & ? & ? & ?).
  split_and!; try done.
  destruct (Forall2_lookup_r _ _ _ _ _ Hgen Hbart) as (p & Hp & ? & ? & Hc).
  rewrite Hop in Hp. injection Hp as <-. by eapply correct_Ok.
Qed.

End RowProperties.


(** X6: in the detailed table of a model whose evaluation ended normally,
    line i is the line of sample i: its reference and its original
    prediction, the text that the model generated from that very
    prediction with the maximum length read from the directory name (for
    the tokenizer and for the generation alike), and the scores of that
    text against that reference, the cosine similarity being taken with
    reference vector i. *)
Theorem detailed_rows_aligned {I : Interpreter} {C : Collaborators}
  (refs preds : list cell) vec rvecs (model_dir : str) (σ σ' : state) :
  length refs = length preds →
  evaluate_model refs preds vec rvecs model_dir σ = (Ok (), σ') →
  ∃ results tok mdl max_length,
    files σ' !! (model_dir ++ lit "_detailed_evaluation.csv")
    = Some {| header := result_keys; body := map result_values results |}
    ∧ length results = length refs
    ∧ tokenizer_from_pretrained model_dir = Ok tok
    ∧ model_from_pretrained model_dir = Ok mdl
    ∧ get_max_length_from_dir model_dir 128 = Ok max_length
    ∧ ∀ i r,
        results !! i = Some r →
        Model r = model_dir
        ∧ refs !! i = Some (True_Transcription_ r)
        ∧ preds !! i = Some (Original_Prediction r)
        ∧ (∃ inputs outputs,
             tokenize tok (Original_Prediction r) max_length = Ok inputs
             ∧ generate mdl inputs max_length = Ok outputs
             ∧ decode tok outputs = Ok (BART_Corrected r))
        ∧ wer (True_Transcription_ r) (BART_Corrected r) = Ok (WER r)
        ∧ cer (True_Transcription_ r) (BART_Corrected r) = Ok (CER r)
        ∧ corpus_bleu (BART_Corrected r) (True_Transcription_ r)
          = Ok (BLEU r)
        ∧ ∃ ref_vector bart_vector similarities row,
            rvecs !! i = Some ref_vector
            ∧ tfidf_transform vec [Some (BART_Corrected r)] = Ok bart_vector
            ∧ cosine_similarity [ref_vector] bart_vector = Ok similarities
            ∧ similarities !! 0%nat = Some row
            ∧ row !! 0%nat = Some (Cosine_Similarity r).
Proof.
  intros Hrp H. rewrite evaluate_model_split in H.
  apply bind_Ok in H as (results & σ1 & Hprep & Hrep).
  destruct (prepare_Ok _ _ _ _ _ _ _ _ Hrp Hprep)
    as (Hlen & tok & mdl & max_length & Htok & Hmdl & Hml & Hrows).
  exists results, tok, mdl, max_length. split_and!; try done.
  pose proof (report_Ok_records _ _ _ _ Hrep) as Hne.
  destruct results as [|r rs]; [done|].
  apply report_run in Hrep as ->. cbn [files].
  rewrite lookup_insert_ne, lookup_insert_ne, lookup_insert_eq; [done| |].
  - by apply file_names_differ.
  - by apply file_names_differ.
Qed.

Lemma detailed_rows_aligned_witness :
  ∃ results tok mdl max_length,
    files (evaluate_model (I := ascii_interpreter) (C := stand_in [])
             [Some (lit "the cat sat")] [Some (lit "the cat sit")] () [()]
             (lit "bart_minimal_ml32") (initial ∅)).2
    !! (lit "bart_minimal_ml32" ++ lit "_detailed_evaluation.csv")
    = Some {| header := result_keys; body := map result_values results |}
    ∧ length results = length [Some (lit "the cat sat")]
    ∧ tokenizer_from_pretrained (Collaborators := stand_in [])
        (lit "bart_minimal_ml32") = Ok tok
    ∧ model_from_pretrained (Collaborators := stand_in [])
        (lit "bart_minimal_ml32") = Ok mdl
    ∧ get_max_length_from_dir (I := ascii_interpreter)
        (lit "bart_minimal_ml32") 128 = Ok max_length
    ∧ ∀ i r,
        results !! i = Some r →
        Model r = lit "bart_minimal_ml32"
        ∧ [Some (lit "the cat sat")] !! i = Some (True_Transcription_ r)
        ∧ [Some (lit "the cat sit")] !! i = Some (Original_Prediction r)
        ∧ (∃ inputs outputs,
             tokenize (Collaborators := stand_in []) tok
               (Original_Prediction r) max_length = Ok inputs
             ∧ generate mdl inputs max_length = Ok outputs
             ∧ decode tok outputs = Ok (BART_Corrected r))
        ∧ wer (Collaborators := stand_in [])
            (True_Transcription_ r) (BART_Corrected r) = Ok (WER r)
        ∧ cer (Collaborators := stand_in [])
            (True_Transcription_ r) (BART_Corrected r) = Ok (CER r)
        ∧ corpus_bleu (Collaborators := stand_in [])
            (BART_Corrected r) (True_Transcription_ r) = Ok (BLEU r)
        ∧ ∃ ref_vector bart_vector similarities row,
            [()] !! i = Some ref_vector
            ∧ tfidf_transform (Collaborators := stand_in []) ()
                [Some (BART_Corrected r)] = Ok bart_vector
            ∧ cosine_similarity (Collaborators := stand_in [])
                [ref_vector] bart_vector = Ok similarities
            ∧ similarities !! 0%nat = Some row
            ∧ row !! 0%nat = Some (Cosine_Similarity r).
Proof.
  apply (detailed_rows_aligned (I := ascii_interpreter) (C := stand_in [])
           [Some (lit "the cat sat")] [Some (lit "the cat sit")] () [()]
           (lit "bart_minimal_ml32") (initial ∅)).
  - reflexivity.
  - vm_compute. reflexivity.
Defined.



(** X9: when the input file cannot be read, or the vectorizer cannot be
    fitted or applied to the references, the run ends with that exception
    before it looks for model directories: it has printed the loading line
    only and written nothing, and the exit status is 1. *)
Theorem loader_failure_ends_run {I : Interpreter} {C : Collaborators}
  (fs : gmap str table) (e : exn) :
  read_csv file_path = Raise e
  ∨ (∃ rows,
       read_csv file_path = Ok rows
       ∧ (tfidf_fit
            (tolist True_Transcription (clean (range_index rows))
             ++ tolist Predicted_Transcription (clean (range_index rows)))
          = Raise e
          ∨ ∃ vec,
              tfidf_fit
                (tolist True_Transcription (clean (range_index rows))
                 ++ tolist Predicted_Transcription
                      (clean (range_index rows)))
              = Ok vec
              ∧ tfidf_transform vec
                  (tolist True_Transcription (clean (range_index rows)))
                = Raise e)) →
  main (initial fs)
  = (Raise e, {| stdout := [lit "Loading test data..."]; files := fs |})
  ∧ (e ≠ SystemExit → exit_status (main (initial fs)).1 = 1).
Proof.
  intros H.
  assert (main (initial fs)
          = (Raise e,
             {| stdout := [lit "Loading test data..."]; files := fs |}))
    as Hmain.
  { unfold main, load, build_index, mbind, M_bind, bind, call, print,
      mret, M_ret, ret. cbn [stdout files initial].
    destruct H as [->|(rows & -> & [->|(vec & -> & ->)])]; done. }
  split; [done|]. rewrite Hmain. by destruct e.
Qed.

Lemma loader_failure_ends_run_witness :
  main (I := ascii_interpreter)
    (C := faulty_stand_in (Raise OSError) [] [] (Ok 0%float)) (initial ∅)
  = (Raise OSError, {| stdout := [lit "Loading test data..."]; files := ∅ |})
  ∧ (OSError ≠ SystemExit →
     exit_status
       (main (I := ascii_interpreter)
          (C := faulty_stand_in (Raise OSError) [] [] (Ok 0%float))
          (initial ∅)).1 = 1).
Proof.
  apply (loader_failure_ends_run (I := ascii_interpreter)
           (C := faulty_stand_in (Raise OSError) [] [] (Ok 0%float))
           ∅ OSError).
  left. reflexivity.
Defined.

(** X10: an evaluation that ends normally has changed the files by exactly
    the three reports of its model, all three computed from the same
    records, one per sample: the detailed table lists them, the summary
    has one line per metric, in the order WER, CER, BLEU, cosine
    similarity, with the mean and the median of that column over all the
    records, and the outlier table has the five counts of those records. *)
Theorem evaluation_writes_three_reports {I : Interpreter}
  {C : Collaborators} (refs preds : list cell) vec rvecs (model_dir : str)
  (σ σ' : state) :
  length refs = length preds →
  evaluate_model refs preds vec rvecs model_dir σ = (Ok (), σ') →
  ∃ results,
    length results = length refs
    ∧ results ≠ []
    ∧ files σ'
      = <[model_dir ++ lit "_outlier_counts.csv" :=
            {| header := [lit "Metric"; lit "Outlier Count"];
               body := [[VStr (lit "BLEU");
                         VCount (count bleu_outlier results)];
                        [VStr (lit "WER");
                         VCount (count wer_outlier results)];
                        [VStr (lit "CER");
                         VCount (count cer_outlier results)];
                        [VStr (lit "Cosine Similarity");
                         VCount (count cosine_outlier results)];
                        [VStr (lit "Total Outliers");
                         VCount (count any_outlier results)]] |}]>
          (<[model_dir ++ lit "_summary_evaluation.csv" :=
               {| header := [lit "Metric"; lit "Mean (All Data)";
                             lit "Median (All Data)"];
                  body := [[VStr (lit "WER");
                            VFloat (mean (map WER results));
                            VFloat (median (map WER results))];
                           [VStr (lit "CER");
                            VFloat (mean (map CER results));
                            VFloat (median (map CER results))];
                           [VStr (lit "BLEU");
                            VFloat (mean (map BLEU results));
                            VFloat (median (map BLEU results))];
                           [VStr (lit "Cosine Similarity");
                            VFloat (mean (map Cosine_Similarity results));
                            VFloat
                              (median (map Cosine_Similarity results))]] |}]>
             (<[model_dir ++ lit "_detailed_evaluation.csv" :=
                  {| header := result_keys;
                     body := map result_values results |}]> (files σ))).
Proof.
  intros Hrp H. rewrite evaluate_model_split in H.
  apply bind_Ok in H as (results & σ1 & Hprep & Hrep).
  destruct (prepare_Ok _ _ _ _ _ _ _ _ Hrp Hprep) as (Hlen & _).
  pose proof (report_Ok_records _ _ _ _ Hrep) as Hne.
  exists results. split_and!; [done..|].
  pose proof (keeps_files_prepare refs preds vec rvecs model_dir σ) as Hk.
  rewrite Hprep in Hk. simpl in Hk.
  destruct results as [|r rs]; [done|].
  apply report_run in Hrep as ->. cbn [files].
  by rewrite Hk.
Qed.

Lemma evaluation_writes_three_reports_witness :
  ∃ results,
    length results = length [Some (lit "the cat sat")]
    ∧ results ≠ []
    ∧ files (evaluate_model (I := ascii_interpreter) (C := stand_in [])
               [Some (lit "the cat sat")] [Some (lit "the cat sit")] () [()]
               (lit "bart_minimal_ml32") (initial ∅)).2
      = <[lit "bart_minimal_ml32" ++ lit "_outlier_counts.csv" :=
            {| header := [lit "Metric"; lit "Outlier Count"];
               body := [[VStr (lit "BLEU");
                         VCount (count bleu_outlier results)];
                        [VStr (lit "WER");
                         VCount (count wer_outlier results)];
                        [VStr (lit "CER");
                         VCount (count cer_outlier results)];
                        [VStr (lit "Cosine Similarity");
                         VCount (count cosine_outlier results)];
                        [VStr (lit "Total Outliers");
                         VCount (count any_outlier results)]] |}]>
          (<[lit "bart_minimal_ml32" ++ lit "_summary_evaluation.csv" :=
               {| header := [lit "Metric"; lit "Mean (All Data)";
                             lit "Median (All Data)"];
                  body := [[VStr (lit "WER");
                            VFloat (mean (Collaborators := stand_in [])
                                      (map WER results));
                            VFloat (median (Collaborators := stand_in [])
                                      (map WER results))];
                           [VStr (lit "CER");
                            VFloat (mean (Collaborators := stand_in [])
                                      (map CER results));
                            VFloat (median (Collaborators := stand_in [])
                                      (map CER results))];
                           [VStr (lit "BLEU");
                            VFloat (mean (Collaborators := stand_in [])
                                      (map BLEU results));
                            VFloat (median (Collaborators := stand_in [])
                                      (map BLEU results))];
                           [VStr (lit "Cosine Similarity");
                            VFloat (mean (Collaborators := stand_in [])
                                      (map Cosine_Similarity results));
                            VFloat
                              (median (Collaborators := stand_in [])
                                 (map Cosine_Similarity results))]] |}]>
             (<[lit "bart_minimal_ml32" ++ lit "_detailed_evaluation.csv" :=
                  {| header := result_keys;
                     body := map result_values results |}]>
                (files (initial ∅)))).
Proof.
  apply (evaluation_writes_three_reports (I := ascii_interpreter)
           (C := stand_in [])
           [Some (lit "the cat sat")] [Some (lit "the cat sit")] () [()]
           (lit "bart_minimal_ml32") (initial ∅)).
  - reflexivity.
  - vm_compute. reflexivity.
Defined.

(** ** What the run writes *)

Lemma writes_only_keeps (P : str → Prop) {A} (m : M A) :
  keeps_files m → writes_only P m.
Proof. intros Hk σ path _. by rewrite Hk. Qed.

Lemma writes_only_to_csv {C : Collaborators} (P : str → Prop) path t :
  P path → writes_only P (to_csv path t).
Proof.
  intros HP σ path' Hn. unfold to_csv.
  destruct (write_file path t) as [|e [t'|]]; cbn [snd files leave];
    [| |done]; apply lookup_insert_ne; by intros ->.
Qed.

Lemma writes_only_bind (P : str → Prop) {A B} (m : M A) (k : A → M B) :
  writes_only P m → (∀ a, writes_only P (k a)) → writes_only P (m ≫= k).
Proof.
  intros Hm Hk σ path Hn. unfold mbind, M_bind, bind.
  specialize (Hm σ path Hn). destruct (m σ) as [[a|e] σ1]; simpl in *;
    [|done].
  by rewrite Hk.
Qed.

Lemma writes_only_for_each (P : str → Prop) {A B} (body : A → M B) xs :
  (∀ x, x ∈ xs → writes_only P (body x)) → writes_only P (for_each body xs).
Proof.
  induction xs as [|x xs IH]; intros Hb; simpl.
  - by intros σ path _.
  - apply writes_only_bind; [apply Hb; left|]. intros y.
    apply writes_only_bind.
    + apply IH. intros x' Hx'. apply Hb. by right.
    + intros ys. by intros σ path _.
Qed.

Lemma writes_only_mono (P Q : str → Prop) {A} (m : M A) :
  (∀ path, P path → Q path) → writes_only P m → writes_only Q m.
Proof. intros HPQ Hm σ path Hn. apply Hm. intros HP. by apply Hn, HPQ. Qed.

Lemma keeps_existing_keeps {A} (m : M A) : keeps_files m → keeps_existing m.
Proof. intros Hk σ path. by rewrite Hk. Qed.

Lemma keeps_existing_to_csv {C : Collaborators} path t :
  keeps_existing (to_csv path t).
Proof.
  intros σ path' Hs. unfold to_csv.
  destruct (write_file path t) as [|e [t'|]]; cbn [snd files leave];
    [| |done].
  all: destruct (decide (path = path')) as [->|Hne];
    [by rewrite lookup_insert_eq|by rewrite lookup_insert_ne].
Qed.

Lemma keeps_existing_bind {A B} (m : M A) (k : A → M B) :
  keeps_existing m → (∀ a, keeps_existing (k a)) → keeps_existing (m ≫= k).
Proof.
  intros Hm Hk σ path Hs. unfold mbind, M_bind, bind.
  specialize (Hm σ path Hs). destruct (m σ) as [[a|e] σ1]; simpl in *;
    [|done].
  by apply Hk.
Qed.

Lemma keeps_existing_for_each {A B} (body : A → M B) xs :
  (∀ x, keeps_existing (body x)) → keeps_existing (for_each body xs).
Proof.
  intros Hb. induction xs as [|x xs IH]; simpl.
  - by intros σ path.
  - apply keeps_existing_bind; [done|]. intros y.
    apply keeps_existing_bind; [done|]. intros ys. by intros σ path.
Qed.

Section WriteProperties.
Context {I : Interpreter} {C : Collaborators}.

Lemma writes_only_report model_dir results :
  writes_only (λ path, path ∈ report_files model_dir)
    (report model_dir results).
Proof.
  unfold report, report_files, detailed_file, summary_file,
    outlier_counts_file.
  repeat first
    [ apply writes_only_to_csv; set_solver
    | apply writes_only_bind; [|intros ?]
    | apply writes_only_keeps, keeps_files_print
    | apply writes_only_keeps, keeps_files_call ].
Qed.

Lemma keeps_existing_report model_dir results :
  keeps_existing (report model_dir results).
Proof.
  unfold report.
  repeat first
    [ apply keeps_existing_to_csv
    | apply keeps_existing_bind; [|intros ?]
    | apply keeps_existing_keeps, keeps_files_print
    | apply keeps_existing_keeps, keeps_files_call ].
Qed.

Lemma writes_only_evaluate_model refs preds vec rvecs model_dir :
  writes_only (λ path, path ∈ report_files model_dir)
    (evaluate_model refs preds vec rvecs model_dir).
Proof.
  intros σ path Hn. rewrite evaluate_model_split. revert σ path Hn.
  apply writes_only_bind.
  - apply writes_only_keeps, keeps_files_prepare.
  - intros results. apply writes_only_report.
Qed.

Lemma keeps_existing_evaluate_model refs preds vec rvecs model_dir :
  keeps_existing (evaluate_model refs preds vec rvecs model_dir).
Proof.
  intros σ path Hs. rewrite evaluate_model_split. revert σ path Hs.
  apply keeps_existing_bind.
  - apply keeps_existing_keeps, keeps_files_prepare.
  - intros results. apply keeps_existing_report.
Qed.

(** The files that the run may write: the reports of the directories that
    the discovery selects. *)
Lemma writes_only_main :
  writes_only
    (λ path, ∃ entries model_dir,
               listdir (lit ".") = Ok entries
               ∧ model_dir ∈ discover entries
               ∧ path ∈ report_files model_dir)
    main.
Proof.
  unfold main, load, build_index.
  apply writes_only_bind.
  { apply writes_only_keeps.
    apply keeps_files_bind; [apply keeps_files_print|intros _].
    apply keeps_files_bind; [apply keeps_files_call|intros rows].
    apply keeps_files_ret. }
  intros [refs preds]. apply writes_only_bind.
  { apply writes_only_keeps.
    repeat (apply keeps_files_bind; [apply keeps_files_call|intros ?]).
    apply keeps_files_ret. }
  intros [vec rvecs]. unfold discover_and_evaluate.
  intros σ path Hn. unfold mbind at 1, M_bind, bind, call.
  destruct (listdir (lit ".")) as [entries|e] eqn:Hl; [|done].
  destruct (discover entries) as [|d ds] eqn:Hd; [done|].
  revert σ path Hn. apply writes_only_bind.
  - apply writes_only_for_each. intros x Hx.
    eapply writes_only_mono; [|apply writes_only_evaluate_model].
    intros path Hp. exists entries, x. by rewrite Hd.
  - intros ?. apply writes_only_keeps, keeps_files_print.
Qed.

Lemma discover_prefix entries model_dir :
  model_dir ∈ discover entries →
  ∃ rest, model_dir = lit "bart_minimal" ++ rest.
Proof.
  unfold discover.
  rewrite list_elem_of_In, List.filter_In, andb_true_iff, startswith_spec.
  tauto.
Qed.

End WriteProperties.




(** X11: the run changes no file other than the three reports of the
    directories that the discovery selects, however it ends; so a file
    whose name does not start with [bart_minimal], the input file for
    one, is never written. *)
Theorem main_writes_only_reports {I : Interpreter} {C : Collaborators}
  (fs : gmap str table) (path : str) :
  ((∀ entries model_dir,
      listdir (lit ".") = Ok entries →
      model_dir ∈ discover entries →
      path ≠ model_dir ++ lit "_detailed_evaluation.csv"
      ∧ path ≠ model_dir ++ lit "_summary_evaluation.csv"
      ∧ path ≠ model_dir ++ lit "_outlier_counts.csv") →
   files (main (initial fs)).2 !! path = fs !! path)
  ∧ (Py.startswith path (lit "bart_minimal") = false →
     files (main (initial fs)).2 !! path = fs !! path)
  ∧ files (main (initial fs)).2 !! file_path = fs !! file_path.
Proof.
  assert (Py.startswith path (lit "bart_minimal") = false →
          files (main (initial fs)).2 !! path = fs !! path) as Hprefix.
  { intros Hs. apply (writes_only_main (initial fs) path).
    intros (entries & d & _ & [rest ->]%discover_prefix & Hp).
    assert (Py.startswith path (lit "bart_minimal") = true); [|congruence].
    apply startswith_spec. unfold report_files, detailed_file, summary_file,
      outlier_counts_file in Hp.
    rewrite !elem_of_cons, elem_of_nil in Hp.
    destruct Hp as [->|[->|[->|[]]]]; rewrite <- app_assoc; by eexists. }
  split_and!; [|done|].
  - intros Hn. apply (writes_only_main (initial fs) path).
    intros (entries & d & Hl & Hd & Hp).
    destruct (Hn entries d Hl Hd) as (H1 & H2 & H3).
    unfold report_files, detailed_file, summary_file, outlier_counts_file
      in Hp.
    rewrite !elem_of_cons, elem_of_nil in Hp. tauto.
  - clear Hprefix. apply (writes_only_main (initial fs) file_path).
    intros (entries & d & _ & [rest ->]%discover_prefix & Hp).
    unfold report_files, detailed_file, summary_file, outlier_counts_file
      in Hp.
    rewrite !elem_of_cons, elem_of_nil in Hp.
    destruct Hp as [Hp|[Hp|[Hp|[]]]]; vm_compute in Hp; discriminate.
Qed.

Lemma main_writes_only_reports_witness :
  files (main (I := ascii_interpreter)
           (C := stand_in [(lit "bart_minimal_ml32", true)])
           (initial ∅)).2 !! lit "notes.txt"
  = (∅ : gmap str table) !! lit "notes.txt".
Proof.
  apply (proj1 (proj2 (main_writes_only_reports (I := ascii_interpreter)
                         (C := stand_in [(lit "bart_minimal_ml32", true)])
                         ∅ (lit "notes.txt")))).
  reflexivity.
Defined.

Section SuccessProperties.
Context {I : Interpreter} {C : Collaborators}.

Lemma evaluate_model_Ok_files refs preds vec rvecs model_dir σ σ' path :
  evaluate_model refs preds vec rvecs model_dir σ = (Ok (), σ') →
  path ∈ report_files model_dir →
  is_Some (files σ' !! path).
Proof.
  intros H Hp. rewrite evaluate_model_split in H.
  apply bind_Ok in H as (results & σ1 & _ & Hrep).
  pose proof (report_Ok_records _ _ _ _ Hrep) as Hne.
  destruct results as [|r rs]; [done|].
  apply report_run in Hrep as ->. cbn [files].
  unfold report_files in Hp. rewrite !elem_of_cons, elem_of_nil in Hp.
  destruct Hp as [->|[->|[->|[]]]].
  - rewrite lookup_insert_ne, lookup_insert_ne, lookup_insert_eq; [done| |];
      by apply file_names_differ.
  - rewrite lookup_insert_ne, lookup_insert_eq; [done|].
    by apply file_names_differ.
  - by rewrite lookup_insert_eq.
Qed.

Lemma for_each_evaluate_Ok_files refs preds vec rvecs dirs σ us σ' :
  for_each (evaluate_model refs preds vec rvecs) dirs σ = (Ok us, σ') →
  ∀ model_dir path,
    model_dir ∈ dirs → path ∈ report_files model_dir →
    is_Some (files σ' !! path).
Proof.
  revert σ us. induction dirs as [|d dirs IH]; intros σ us H model_dir path.
  - by intros ?%elem_of_nil.
  - simpl in H.
    apply bind_Ok in H as ([] & σ1 & Hd & H).
    apply bind_Ok in H as (us' & σ2 & Hrest & H).
    apply ret_Ok in H as [-> ->].
    intros [->|Hin]%elem_of_cons Hp.
    + pose proof (keeps_existing_for_each
                    (evaluate_model refs preds vec rvecs) dirs
                    (keeps_existing_evaluate_model refs preds vec rvecs)
                    σ1 path) as Hk.
      rewrite Hrest in Hk. apply Hk.
      by eapply evaluate_model_Ok_files.
    + by eapply IH.
Qed.

End SuccessProperties.

(** X12: when the run ends normally, the discovery had selected at least
    one directory, each selected directory has its three report files, the
    last line printed is the completion message and the exit status
    is 0. *)
Theorem completed_run_has_all_reports {I : Interpreter} {C : Collaborators}
  (fs : gmap str table) (σ' : state) :
  main (initial fs) = (Ok (), σ') →
  ∃ entries,
    listdir (lit ".") = Ok entries
    ∧ discover entries ≠ []
    ∧ (∀ model_dir,
         model_dir ∈ discover entries →
         is_Some (files σ'
                  !! (model_dir ++ lit "_detailed_evaluation.csv"))
         ∧ is_Some (files σ'
                    !! (model_dir ++ lit "_summary_evaluation.csv"))
         ∧ is_Some (files σ' !! (model_dir ++ lit "_outlier_counts.csv")))
    ∧ last (stdout σ')
      = Some (newline ++ lit "BART Evaluation complete and saved.")
    ∧ exit_status (main (initial fs)).1 = 0.
Proof.
  intros H. pose proof H as Hmain. unfold main in H.
  apply bind_Ok in H as ([refs preds] & σ1 & _ & H).
  apply bind_Ok in H as ([vec rvecs] & σ2 & _ & H).
  unfold discover_and_evaluate in H.
  apply bind_Ok in H as (entries & ? & [Hl ->]%call_Ok & H).
  exists entries. split; [done|].
  destruct (discover entries) as [|d ds] eqn:Hd.
  { apply bind_Ok in H as ([] & ? & _ & H). discriminate. }
  apply bind_Ok in H as (us & σ3 & Hloop & H).
  injection H as <-. split_and!.
  - done.
  - intros model_dir Hin.
    pose proof (for_each_evaluate_Ok_files _ _ _ _ _ _ _ _ Hloop model_dir)
      as Hfiles.
    cbn [files]. unfold report_files, detailed_file, summary_file,
      outlier_counts_file in Hfiles.
    split_and!; apply Hfiles; try done; rewrite !elem_of_cons; tauto.
  - cbn [stdout]. apply last_snoc.
  - by rewrite Hmain.
Qed.

Lemma completed_run_has_all_reports_witness :
  ∃ entries,
    listdir (Collaborators := stand_in [(lit "bart_minimal_ml32", true)])
      (lit ".") = Ok entries
    ∧ discover (C := stand_in [(lit "bart_minimal_ml32", true)]) entries
      ≠ []
    ∧ (∀ model_dir,
         model_dir
           ∈ discover (C := stand_in [(lit "bart_minimal_ml32", true)])
               entries →
         is_Some (files
                    (main (I := ascii_interpreter)
                       (C := stand_in [(lit "bart_minimal_ml32", true)])
                       (initial ∅)).2
                  !! (model_dir ++ lit "_detailed_evaluation.csv"))
         ∧ is_Some (files
                      (main (I := ascii_interpreter)
                         (C := stand_in [(lit "bart_minimal_ml32", true)])
                         (initial ∅)).2
                    !! (model_dir ++ lit "_summary_evaluation.csv"))
         ∧ is_Some (files
                      (main (I := ascii_interpreter)
                         (C := stand_in [(lit "bart_minimal_ml32", true)])
                         (initial ∅)).2
                    !! (model_dir ++ lit "_outlier_counts.csv")))
    ∧ last (stdout
              (main (I := ascii_interpreter)
                 (C := stand_in [(lit "bart_minimal_ml32", true)])
                 (initial ∅)).2)
      = Some (newline ++ lit "BART Evaluation complete and saved.")
    ∧ exit_status
        (main (I := ascii_interpreter)
           (C := stand_in [(lit "bart_minimal_ml32", true)])
           (initial ∅)).1 = 0.
Proof.
  apply (completed_run_has_all_reports (I := ascii_interpreter)
           (C := stand_in [(lit "bart_minimal_ml32", true)]) ∅).
  vm_compute. reflexivity.
Defined.

(** ** [int] reads back what [str] prints *)

Lemma lit_String a s : lit (String a s) = N_of_ascii a :: lit s.
Proof. reflexivity. Qed.

Lemma acc_value (d : Decimal.uint) (acc : positive) :
  Z.pos (Pos.of_uint_acc d acc) = digits_value (Z.pos acc) d.
Proof.
  revert acc. induction d; intros acc; simpl; [done|..];
    rewrite IHd; f_equal; lia.
Qed.

Lemma uint_value (d : Decimal.uint) : Z.of_uint d = digits_value 0 d.
Proof.
  unfold Z.of_uint. induction d; simpl; [done|done|..];
    by rewrite acc_value.
Qed.

Lemma digits_length (d : Decimal.uint) :
  length (lit (NilEmpty.string_of_uint d)) = Decimal.nb_digits d.
Proof.
  induction d; [done|..];
    cbn [NilEmpty.string_of_uint Decimal.nb_digits]; rewrite lit_String;
    simpl; by f_equal.
Qed.

Lemma digits_first (d : Decimal.uint) :
  d ≠ Decimal.Nil →
  ∃ c s, lit (NilEmpty.string_of_uint d) = c :: s ∧ (48 ≤ c ≤ 57)%N.
Proof.
  intros Hd. destruct d; [done|..];
    cbn [NilEmpty.string_of_uint]; rewrite lit_String;
    eexists _, _; (split; [reflexivity|vm_compute; split; discriminate]).
Qed.

Lemma digits_no_underscore (d : Decimal.uint) :
  Forall (λ c, c ≠ 95%N) (lit (NilEmpty.string_of_uint d)).
Proof.
  induction d; [constructor|..];
    cbn [NilEmpty.string_of_uint]; rewrite lit_String;
    (constructor; [vm_compute; discriminate|done]).
Qed.

Lemma no_underscore_no_marker (s : str) :
  Forall (λ c, c ≠ 95%N) s → Py.contains (lit "_ml") s = false.
Proof.
  unfold Py.contains. change (lit "_ml") with [95%N; 109%N; 108%N].
  induction 1 as [|c s Hc _ IH]; [done|].
  rewrite find_unfold. cbn [Py.startswith].
  rewrite (proj2 (N.eqb_neq 95 c)) by done. simpl.
  by destruct (Py.find s _).
Qed.

Section IntOfStr.
Context {I : Interpreter}.

Lemma scan_uint (d : Decimal.uint) (value : Z) (digits : nat) :
  PyInt.scan_digits false value digits (lit (NilEmpty.string_of_uint d))
  = Some (digits_value value d, (digits + Decimal.nb_digits d)%nat, []).
Proof.
  revert value digits.
  induction d as [|d IH|d IH|d IH|d IH|d IH|d IH|d IH|d IH|d IH|d IH];
    intros value digits;
    [simpl; by rewrite Nat.add_0_r|..];
    cbn [NilEmpty.string_of_uint]; rewrite lit_String;
    cbn [PyInt.scan_digits digits_value Decimal.nb_digits];
    change (N_of_ascii _ =? 95)%N with false; cbv iota;
    (lazymatch goal with
     | |- context [PyInt.decimal_digit ?c] =>
         let r := eval vm_compute in (@PyInt.decimal_digit I c) in
         change (PyInt.decimal_digit c) with r
     end);
    cbv iota; rewrite IH; by rewrite Nat.add_succ_r.
Qed.

(** On a text that starts with an ASCII digit there is no white space to
    skip and no sign to read, and a minus sign in front negates. *)
Lemma int_digit_first (c : N) (s : str) :
  (48 ≤ c ≤ 57)%N →
  PyInt.skip_spaces (c :: s) = c :: s
  ∧ PyInt.read_sign (c :: s) = (false, c :: s)
  ∧ PyInt.starts_with_underscore (c :: s) = false
  ∧ PyInt.skip_spaces (45%N :: c :: s) = 45%N :: c :: s.
Proof.
  intros Hc. unfold PyInt.read_sign, PyInt.starts_with_underscore.
  cbn [PyInt.skip_spaces]. unfold PyInt.is_space.
  rewrite (proj2 (N.ltb_lt c 128)) by lia.
  rewrite (proj2 (N.leb_gt c 13)) by lia.
  rewrite !(proj2 (N.eqb_neq c _)) by lia.
  by rewrite andb_false_r.
Qed.

Lemma int_of_digits (d : Decimal.uint) :
  d ≠ Decimal.Nil →
  (Decimal.nb_digits d ≤ 640)%nat →
  PyInt.int (lit (NilEmpty.string_of_uint d)) = Ok (digits_value 0 d)
  ∧ PyInt.int (45%N :: lit (NilEmpty.string_of_uint d))
    = Ok (- digits_value 0 d).
Proof.
  intros Hd Hn.
  destruct (digits_first d Hd) as (c & s & Hs & Hc).
  destruct (int_digit_first c s Hc) as (Hsk & Hsg & Hus & Hsk').
  assert (PyInt.exceeds_digit_limit (0 + Decimal.nb_digits d) = false)
    as Hlim.
  { unfold PyInt.exceeds_digit_limit.
    by rewrite (proj2 (Nat.ltb_ge 640 _)) by lia. }
  assert ((0 + Decimal.nb_digits d =? 0)%nat = false) as Hnz.
  { apply Nat.eqb_neq. destruct d; simpl; [done|lia..]. }
  unfold PyInt.int. rewrite Hs, Hsk, Hsk', Hsg. cbn [PyInt.read_sign].
  change (45 =? 43)%N with false. change (45 =? 45)%N with true.
  cbv iota. rewrite Hus, <- Hs, scan_uint, Hnz, Hlim. done.
Qed.

Lemma int_of_str (n : Z) :
  (length (str_of_int n) ≤ 640)%nat → PyInt.int (str_of_int n) = Ok n.
Proof.
  unfold str_of_int. destruct n as [|p|p]; intros Hlen.
  - vm_compute. reflexivity.
  - pose proof (DecimalPos.Unsigned.to_uint_nonnil p) as Hd.
    pose proof (DecimalZ.of_to (Z.pos p)) as Hv. simpl in Hv.
    revert Hlen. cbn [Z.to_int NilZero.string_of_int].
    unfold NilZero.string_of_uint.
    destruct (Pos.to_uint p) as [| | | | | | | | | |] eqn:E; [done|..];
      rewrite <- E in *; rewrite digits_length; intros Hlen;
      rewrite (proj1 (int_of_digits _ Hd Hlen)), <- uint_value;
      by rewrite Hv.
  - pose proof (DecimalPos.Unsigned.to_uint_nonnil p) as Hd.
    pose proof (DecimalZ.of_to (Z.neg p)) as Hv. simpl in Hv.
    revert Hlen. cbn [Z.to_int NilZero.string_of_int].
    unfold NilZero.string_of_uint. rewrite lit_String.
    change (N_of_ascii _) with 45%N.
    destruct (Pos.to_uint p) as [| | | | | | | | | |] eqn:E; [done|..];
      rewrite <- E in *; cbn [length]; rewrite digits_length; intros Hlen;
      rewrite (proj2 (int_of_digits _ Hd ltac:(lia))), <- uint_value;
      by rewrite Hv.
Qed.

Lemma str_of_int_no_marker (n : Z) :
  Py.contains (lit "_ml") (str_of_int n) = false.
Proof.
  apply no_underscore_no_marker. unfold str_of_int.
  destruct n as [|p|p]; cbn [Z.to_int NilZero.string_of_int].
  - vm_compute. by repeat constructor.
  - unfold NilZero.string_of_uint.
    pose proof (DecimalPos.Unsigned.to_uint_nonnil p) as Hd.
    destruct (Pos.to_uint p) eqn:E; [done|..]; rewrite <- E;
      apply digits_no_underscore.
  - unfold NilZero.string_of_uint. rewrite lit_String.
    constructor; [vm_compute; discriminate|].
    pose proof (DecimalPos.Unsigned.to_uint_nonnil p) as Hd.
    destruct (Pos.to_uint p) eqn:E; [done|..]; rewrite <- E;
      apply digits_no_underscore.
Qed.

End IntOfStr.

(** X13: the naming convention round-trips: for every integer [n],
    negative ones and zero included, whose decimal form has at most 640
    characters, [int] reads [str(n)] back as [n], and a directory name made
    of any text, the marker and [str(n)] yields [n], whatever the
    default. *)
Theorem max_length_round_trip {I : Interpreter} (n : Z) :
  (length (str_of_int n) ≤ 640)%nat →
  PyInt.int (str_of_int n) = Ok n
  ∧ ∀ prefix default,
      get_max_length_from_dir (prefix ++ lit "_ml" ++ str_of_int n) default
      = Ok n.
Proof.
  intros Hlen. split; [by apply int_of_str|].
  intros prefix default.
  rewrite get_max_length_after_last_marker by apply str_of_int_no_marker.
  by rewrite int_of_str.
Qed.

Lemma max_length_round_trip_witness :
  PyInt.int (I := ascii_interpreter) (str_of_int (-2048)) = Ok (-2048)
  ∧ ∀ prefix default,
      get_max_length_from_dir (I := ascii_interpreter)
        (prefix ++ lit "_ml" ++ str_of_int (-2048)) default
      = Ok (-2048).
Proof.
  apply (max_length_round_trip (I := ascii_interpreter) (-2048)).
  vm_compute. lia.
Defined.

(** ** The default of [get_max_length_from_dir] *)

(** X14: the default is a fallback and nothing else: for a directory name,
    either the result is the same for every default, or it is the default
    itself for every default. *)
Theorem default_is_fallback {I : Interpreter} (dir_name : str)
  (default1 default2 : Z) :
  get_max_length_from_dir dir_name default1
  = get_max_length_from_dir dir_name default2
  ∨ (get_max_length_from_dir dir_name default1 = Ok default1
     ∧ get_max_length_from_dir dir_name default2 = Ok default2).
Proof.
  unfold get_max_length_from_dir.
  destruct (Py.contains (lit "_ml") dir_name); [|by right].
  change (lit "_ml") with [95%N; 109%N; 108%N].
  unfold mbind, result_bind, rbind, Py.split, Py.last_item.
  destruct (last _) as [max_length_str|]; [|by left].
  destruct (PyInt.int max_length_str) as [n|e] eqn:E; [by left|].
  rewrite (int_raises_ValueError _ _ E). by right.
Qed.

(** ** What a run that ends normally has printed *)

Lemma keeps_state_call {A} (r : result A) : keeps_state (call r).
Proof. by intros σ. Qed.

Lemma keeps_state_ret {A} (a : A) : keeps_state (mret a : M A).
Proof. by intros σ. Qed.

Lemma keeps_state_bind {A B} (m : M A) (k : A → M B) :
  keeps_state m → (∀ a, keeps_state (k a)) → keeps_state (m ≫= k).
Proof.
  intros Hm Hk σ. unfold mbind, M_bind, bind.
  specialize (Hm σ). destruct (m σ) as [[a|e] σ1]; simpl in *; [|done].
  subst σ1. apply Hk.
Qed.

Lemma keeps_state_for_each {A B} (body : A → M B) xs :
  (∀ x, keeps_state (body x)) → keeps_state (for_each body xs).
Proof.
  intros Hb. induction xs as [|x xs IH]; simpl.
  - by intros σ.
  - apply keeps_state_bind; [done|]. intros y.
    apply keeps_state_bind; [done|]. intros ys. by intros σ.
Qed.

Lemma keeps_state_run {A} (m : M A) σ r σ' :
  keeps_state m → m σ = (r, σ') → σ' = σ.
Proof. intros Hm H. specialize (Hm σ). by rewrite H in Hm. Qed.

Section OutputProperties.
Context {I : Interpreter} {C : Collaborators}.

Lemma keeps_state_correct tok mdl max_length pred_text :
  keeps_state (correct tok mdl max_length pred_text).
Proof.
  unfold correct.
  repeat (apply keeps_state_bind; [apply keeps_state_call|intros ?]).
  apply keeps_state_call.
Qed.

Lemma keeps_state_score model_dir vec rvecs preds entry :
  keeps_state (score model_dir vec rvecs preds entry).
Proof.
  destruct entry as [i [ref bart_pred]]. unfold score.
  repeat (apply keeps_state_bind; [apply keeps_state_call|intros ?]).
  by intros σ.
Qed.

Lemma prepare_stdout refs preds vec rvecs model_dir σ results σ' :
  prepare refs preds vec rvecs model_dir σ = (Ok results, σ') →
  ∃ max_length,
    get_max_length_from_dir model_dir 128 = Ok max_length
    ∧ σ' = {| stdout := stdout σ ++ take 4 (model_lines model_dir max_length);
              files := files σ |}.
Proof.
  unfold prepare. intros H.
  apply bind_Ok in H as ([] & σ1 & [= <-] & H).
  apply bind_Ok in H as (tok & ? & [_ ->]%call_Ok & H).
  apply bind_Ok in H as (mdl & ? & [_ ->]%call_Ok & H).
  apply bind_Ok in H as (max_length & ? & [Hml ->]%call_Ok & H).
  apply bind_Ok in H as ([] & σ2 & [= <-] & H).
  apply bind_Ok in H as ([] & σ3 & [= <-] & H).
  apply bind_Ok in H as (barts & σ4 & Hgen & H).
  apply keeps_state_run in Hgen as ->;
    [|apply keeps_state_for_each; intros; apply keeps_state_correct].
  apply bind_Ok in H as ([] & σ5 & [= <-] & H).
  apply keeps_state_run in H as ->;
    [|apply keeps_state_for_each; intros; apply keeps_state_score].
  exists max_length. split; [done|]. cbn [stdout files take model_lines].
  f_equal. by rewrite <- !app_assoc.
Qed.

Lemma evaluate_model_stdout refs preds vec rvecs model_dir σ σ' :
  evaluate_model refs preds vec rvecs model_dir σ = (Ok (), σ') →
  ∃ max_length,
    get_max_length_from_dir model_dir 128 = Ok max_length
    ∧ stdout σ' = stdout σ ++ model_lines model_dir max_length.
Proof.
  intros H. rewrite evaluate_model_split in H.
  apply bind_Ok in H as (results & σ1 & Hprep & Hrep).
  apply prepare_stdout in Hprep as (max_length & Hml & ->).
  exists max_length. split; [done|].
  pose proof (report_Ok_records _ _ _ _ Hrep) as Hne.
  destruct results as [|r rs]; [done|].
  apply report_run in Hrep as ->.
  cbn [stdout take model_lines]. by rewrite <- !app_assoc.
Qed.

Lemma for_each_evaluate_stdout refs preds vec rvecs dirs σ us σ' :
  for_each (evaluate_model refs preds vec rvecs) dirs σ = (Ok us, σ') →
  ∃ lengths,
    Forall2 (λ d n, get_max_length_from_dir d 128 = Ok n) dirs lengths
    ∧ stdout σ' = stdout σ ++ concat (zip_with model_lines dirs lengths).
Proof.
  revert σ us. induction dirs as [|d dirs IH]; intros σ us H; simpl in H.
  - injection H as <- <-. exists []. split; [constructor|].
    simpl. by rewrite app_nil_r.
  - apply bind_Ok in H as ([] & σ1 & Hd & H).
    apply bind_Ok in H as (us' & σ2 & Hrest & H).
    apply ret_Ok in H as [-> ->].
    apply evaluate_model_stdout in Hd as (n & Hn & Hout).
    apply IH in Hrest as (lengths & Hall & Hout').
    exists (n :: lengths). split; [by constructor|].
    rewrite Hout', Hout. cbn [zip_with concat]. by rewrite <- !app_assoc.
Qed.

Lemma load_stdout σ lists σ' :
  load σ = (Ok lists, σ') →
  stdout σ' = stdout σ ++ [lit "Loading test data..."].
Proof.
  unfold load. intros H.
  apply bind_Ok in H as ([] & σ1 & [= <-] & H).
  invert_call H. by apply ret_Ok in H as [_ ->].
Qed.

End OutputProperties.

(** X15: a run that ends normally has printed the loading line, then, for
    each directory that the discovery selected, in the order of the
    listing, the seven lines of its evaluation, with the maximum length
    read from its name, and then the completion message, and nothing
    else. *)
Theorem completed_run_output {I : Interpreter} {C : Collaborators}
  (fs : gmap str table) (σ' : state) :
  main (initial fs) = (Ok (), σ') →
  ∃ entries lengths,
    listdir (lit ".") = Ok entries
    ∧ Forall2 (λ d n, get_max_length_from_dir d 128 = Ok n)
        (discover entries) lengths
    ∧ stdout σ'
      = [lit "Loading test data..."]
        ++ concat (zip_with model_lines (discover entries) lengths)
        ++ [newline ++ lit "BART Evaluation complete and saved."].
Proof.
  intros H. unfold main in H.
  apply bind_Ok in H as ([refs preds] & σ1 & Hload & H).
  apply bind_Ok in H as ([vec rvecs] & σ2 & Hidx & H).
  apply load_stdout in Hload as Hout1.
  assert (σ2 = σ1) as ->.
  { eapply keeps_state_run; [|exact Hidx]. unfold build_index.
    repeat (apply keeps_state_bind; [apply keeps_state_call|intros ?]).
    apply keeps_state_ret. }
  unfold discover_and_evaluate in H.
  apply bind_Ok in H as (entries & ? & [Hl ->]%call_Ok & H).
  destruct (discover entries) as [|d ds] eqn:Hd.
  { apply bind_Ok in H as ([] & ? & _ & H). discriminate. }
  apply bind_Ok in H as (us & σ3 & Hloop & H).
  injection H as <-.
  apply for_each_evaluate_stdout in Hloop as (lengths & Hall & Hout).
  exists entries, lengths. rewrite Hd. split_and!; [done..|].
  cbn [stdout]. rewrite Hout, Hout1. cbn [initial stdout].
  by rewrite <- !app_assoc.
Qed.

Lemma completed_run_output_witness :
  ∃ entries lengths,
    listdir (Collaborators := stand_in [(lit "bart_minimal_ml32", true)])
      (lit ".") = Ok entries
    ∧ Forall2 (λ d n, get_max_length_from_dir (I := ascii_interpreter)
                        d 128 = Ok n)
        (discover (C := stand_in [(lit "bart_minimal_ml32", true)]) entries)
        lengths
    ∧ stdout (main (I := ascii_interpreter)
                (C := stand_in [(lit "bart_minimal_ml32", true)])
                (initial ∅)).2
      = [lit "Loading test data..."]
        ++ concat (zip_with model_lines
                     (discover
                        (C := stand_in [(lit "bart_minimal_ml32", true)])
                        entries)
                     lengths)
        ++ [newline ++ lit "BART Evaluation complete and saved."].
Proof.
  apply (completed_run_output (I := ascii_interpreter)
           (C := stand_in [(lit "bart_minimal_ml32", true)]) ∅).
  vm_compute. reflexivity.
Defined.

(** ** The detailed tables of a whole run *)

Lemma detailed_is_not_summary (d d' : str) :
  d ++ lit "_detailed_evaluation.csv" ≠ d' ++ lit "_summary_evaluation.csv".
Proof.
  intros H. apply (f_equal reverse) in H. rewrite !reverse_app in H.
  set (a := reverse (lit "_detailed_evaluation.csv")) in H.
  set (b := reverse (lit "_summary_evaluation.csv")) in H.
  vm_compute in a, b. subst a b. simpl in H. discriminate.
Qed.

Lemma detailed_is_not_outlier (d d' : str) :
  d ++ lit "_detailed_evaluation.csv" ≠ d' ++ lit "_outlier_counts.csv".
Proof.
  intros H. apply (f_equal reverse) in H. rewrite !reverse_app in H.
  set (a := reverse (lit "_detailed_evaluation.csv")) in H.
  set (b := reverse (lit "_outlier_counts.csv")) in H.
  vm_compute in a, b. subst a b. simpl in H. discriminate.
Qed.

Section RunProperties.
Context {I : Interpreter} {C : Collaborators}.

Lemma load_Ok σ refs preds σ' :
  load σ = (Ok (refs, preds), σ') →
  ∃ rows,
    read_csv file_path = Ok rows
    ∧ refs = tolist True_Transcription (clean (range_index rows))
    ∧ preds = tolist Predicted_Transcription (clean (range_index rows)).
Proof.
  unfold load. intros H.
  apply bind_Ok in H as ([] & σ1 & _ & H).
  invert_call H. apply ret_Ok in H as [[= -> ->] _]. eauto.
Qed.

Lemma evaluate_model_Ok_detailed refs preds vec rvecs model_dir σ σ' :
  length refs = length preds →
  evaluate_model refs preds vec rvecs model_dir σ = (Ok (), σ') →
  ∃ t summary outliers,
    detailed_table_of model_dir (length refs) t
    ∧ files σ'
      = <[outlier_counts_file model_dir := outliers]>
          (<[summary_file model_dir := summary]>
             (<[detailed_file model_dir := t]> (files σ))).
Proof.
  intros Hrp H. rewrite evaluate_model_split in H.
  apply bind_Ok in H as (results & σ1 & Hprep & Hrep).
  pose proof (keeps_files_prepare refs preds vec rvecs model_dir σ) as Hk.
  rewrite Hprep in Hk. simpl in Hk.
  destruct (prepare_Ok _ _ _ _ _ _ _ _ Hrp Hprep)
    as (Hlen & tok & mdl & max_length & _ & _ & _ & Hrows).
  pose proof (report_Ok_records _ _ _ _ Hrep) as Hne.
  destruct results as [|r rs]; [done|].
  apply report_run in Hrep as ->. cbn [files].
  rewrite Hk. do 3 eexists. split; [|reflexivity].
  unfold detailed_table_of, detailed_table. cbn [header body columns records
    pd_DataFrame].
  split_and!; [done|by rewrite length_map|].
  apply Forall_fmap, Forall_lookup. intros i r' Hi.
  apply Hrows in Hi as (<- & _). reflexivity.
Qed.

Lemma evaluate_model_keeps_detailed refs preds vec rvecs d' σ σ' d :
  length refs = length preds →
  evaluate_model refs preds vec rvecs d' σ = (Ok (), σ') →
  d = d' ∨ (∃ t, files σ !! detailed_file d = Some t
                 ∧ detailed_table_of d (length refs) t) →
  ∃ t, files σ' !! detailed_file d = Some t
       ∧ detailed_table_of d (length refs) t.
Proof.
  intros Hrp H Hd.
  apply evaluate_model_Ok_detailed in H as (t & s & o & Ht & ->); [|done].
  unfold detailed_file, summary_file, outlier_counts_file in *.
  rewrite lookup_insert_ne by (intros E; symmetry in E;
                               by apply detailed_is_not_outlier in E).
  rewrite lookup_insert_ne by (intros E; symmetry in E;
                               by apply detailed_is_not_summary in E).
  destruct (decide (d = d')) as [->|Hne].
  - rewrite lookup_insert_eq. eauto.
  - rewrite lookup_insert_ne by (by intros E%app_inv_tail).
    by destruct Hd.
Qed.

Lemma for_each_evaluate_detailed refs preds vec rvecs dirs σ us σ' d :
  length refs = length preds →
  for_each (evaluate_model refs preds vec rvecs) dirs σ = (Ok us, σ') →
  d ∈ dirs ∨ (∃ t, files σ !! detailed_file d = Some t
                   ∧ detailed_table_of d (length refs) t) →
  ∃ t, files σ' !! detailed_file d = Some t
       ∧ detailed_table_of d (length refs) t.
Proof.
  intros Hrp. revert σ us.
  induction dirs as [|d0 dirs IH]; intros σ us H Hd; simpl in H.
  - injection H as <- <-. destruct Hd as [?%elem_of_nil|?]; done.
  - apply bind_Ok in H as ([] & σ1 & H0 & H).
    apply bind_Ok in H as (us' & σ2 & Hrest & H).
    apply ret_Ok in H as [-> ->].
    destruct (decide (d = d0)) as [->|Hne].
    + eapply IH; [done|]. right.
      eapply evaluate_model_keeps_detailed; [done|done|by left].
    + destruct Hd as [[?|Hin]%elem_of_cons|Hinv]; [done| |].
      * eapply IH; [done|by left].
      * eapply IH; [done|]. right.
        eapply evaluate_model_keeps_detailed; [done|done|by right].
Qed.

End RunProperties.

(** X16: after a run that ends normally, the detailed file of every
    directory that the discovery selected has the eight headers and one
    line per complete row of the input file, each line with that
    directory's name as its model; the reports of the directories
    evaluated after it have not touched it. *)
Theorem completed_run_detailed_tables {I : Interpreter} {C : Collaborators}
  (fs : gmap str table) (σ' : state) :
  main (initial fs) = (Ok (), σ') →
  ∃ rows entries,
    read_csv file_path = Ok rows
    ∧ listdir (lit ".") = Ok entries
    ∧ ∀ model_dir,
        model_dir ∈ discover entries →
        ∃ t,
          files σ' !! (model_dir ++ lit "_detailed_evaluation.csv") = Some t
          ∧ header t = result_keys
          ∧ length (body t) = length (List.filter complete rows)
          ∧ Forall (λ line, line !! 0%nat = Some (VStr model_dir)) (body t).
Proof.
  intros H. unfold main in H.
  apply bind_Ok in H as ([refs preds] & σ1 & Hload & H).
  apply bind_Ok in H as ([vec rvecs] & σ2 & _ & H).
  apply load_Ok in Hload as (rows & Hcsv & -> & ->).
  unfold discover_and_evaluate in H.
  apply bind_Ok in H as (entries & ? & [Hl ->]%call_Ok & H).
  exists rows, entries. split_and!; [done..|].
  destruct (discover entries) as [|d ds] eqn:Hd.
  { by intros ? ?%elem_of_nil. }
  apply bind_Ok in H as (us & σ3 & Hloop & H).
  injection H as <-. intros model_dir Hin. cbn [files].
  eapply for_each_evaluate_detailed in Hloop as (t & Ht & Hh & Hn & Hm);
    [| |left; exact Hin].
  - exists t. split_and!; try done.
    rewrite Hn. unfold tolist.
    by rewrite length_map, <- (length_map snd), clean_rows.
  - unfold tolist. by rewrite !length_map.
Qed.

Lemma completed_run_detailed_tables_witness :
  ∃ rows entries,
    read_csv (Collaborators := stand_in [(lit "bart_minimal_ml32", true)])
      file_path = Ok rows
    ∧ listdir (Collaborators := stand_in [(lit "bart_minimal_ml32", true)])
        (lit ".") = Ok entries
    ∧ ∀ model_dir,
        model_dir
          ∈ discover (C := stand_in [(lit "bart_minimal_ml32", true)])
              entries →
        ∃ t,
          files (main (I := ascii_interpreter)
                   (C := stand_in [(lit "bart_minimal_ml32", true)])
                   (initial ∅)).2
            !! (model_dir ++ lit "_detailed_evaluation.csv") = Some t
          ∧ header t = result_keys
          ∧ length (body t) = length (List.filter complete rows)
          ∧ Forall (λ line, line !! 0%nat = Some (VStr model_dir)) (body t).
Proof.
  apply (completed_run_detailed_tables (I := ascii_interpreter)
           (C := stand_in [(lit "bart_minimal_ml32", true)]) ∅).
  vm_compute. reflexivity.
Defined.
